(** * A shallow embedding of [demo/ai_client.py] and [demo/ollama_client.py]

    The unified client [AIClient] (OpenAI, DeepSeek, Ollama and the local
    stub), the stand-alone [OllamaClient] and the [DeepSeekClient] of
    [demo/deepseek_client.py] are embedded as Rocq functions.

    - Python values (the JSON bodies, the keyword arguments, the objects of
      the [openai] library) are the inductive type [value].
    - A [dict] is an association list in insertion order; [dict_set] is the
      item assignment [d[k] = v].
    - Exceptions are values of type [exn]; subscripting, attribute access
      and the [in] operator raise what Python raises.
    - The methods run in the monad [M]: they read the client object and the
      outside world (the HTTP server, the [openai] library, the generator
      behind [random.random]) and record every request they issue.
    - [print] writes to stdout only and is left out.  Only exceptions derived
      from [Exception] are modelled: these are what [except Exception]
      catches. *)

From Stdlib Require Import List String Ascii ZArith QArith Bool Lia.
Import ListNotations.
Set Warnings "-register-all".
Open Scope string_scope.
Open Scope Z_scope.

(** ** Python values *)

Inductive value : Type :=
| VNone
| VBool (b : bool)
| VInt (n : Z)
| VFloat (q : Q)
| VStr (s : string)
| VList (l : list value)
| VDict (d : list (string * value))
| VObj (cls : string) (attrs : list (string * value)).

Definition dict := list (string * value).

(** ** Exceptions *)

Inductive exn_class : Type :=
| KeyError
| IndexError
| AttributeError
| TypeError
| ValueError
| ImportError
| ConnectionError
| HTTPError
| JSONDecodeError
| OtherError (name : string).

(** An exception object: its class, its message, its [__cause__] and the
    extra attributes set on it. *)
Inductive exn : Type :=
| Exn (cls : exn_class) (msg : string) (cause : option exn)
      (attrs : list (string * string)).

Definition exn_cls (e : exn) : exn_class :=
  match e with Exn c _ _ _ => c end.
Definition exn_msg (e : exn) : string :=
  match e with Exn _ m _ _ => m end.
Definition exn_cause (e : exn) : option exn :=
  match e with Exn _ _ c _ => c end.
Definition exn_attrs (e : exn) : list (string * string) :=
  match e with Exn _ _ _ a => a end.

Definition mk_exn (c : exn_class) (m : string) : exn := Exn c m None [].

(** Outcome of evaluating a Python expression or call. *)
Inductive result (A : Type) : Type :=
| Ok (a : A)
| Raise (e : exn).
Arguments Ok {A} a.
Arguments Raise {A} e.

Definition is_raise {A} (r : result A) : bool :=
  match r with Ok _ => false | Raise _ => true end.

(** ** Dictionaries *)

Fixpoint dict_get (k : string) (d : dict) : option value :=
  match d with
  | [] => None
  | (k', v) :: d' => if String.eqb k k' then Some v else dict_get k d'
  end.

Definition dict_mem (k : string) (d : dict) : bool :=
  match dict_get k d with Some _ => true | None => false end.

(** [d[k] = v]: the value is replaced in place when the key exists, else the
    item is appended. *)
Fixpoint dict_set (k : string) (v : value) (d : dict) : dict :=
  match d with
  | [] => [(k, v)]
  | (k', v') :: d' =>
      if String.eqb k k' then (k', v) :: d' else (k', v') :: dict_set k v d'
  end.

(** [{**d, **extra}]: the items of [extra] are assigned in order. *)
Definition dict_update (d extra : dict) : dict :=
  fold_left (fun acc kv => dict_set (fst kv) (snd kv) acc) extra d.

Definition dict_keys (d : dict) : list string := map fst d.

(** ** Truthiness, [in], subscripts and attributes *)

(** [bool(s)] for an optional string: [None] and [""] are false. *)
Definition truthy_str (o : option string) : bool :=
  match o with
  | Some s => negb (String.eqb s "")
  | None => false
  end.

(** [a or b] on optional strings. *)
Definition or_str (a b : option string) : option string :=
  if truthy_str a then a else b.

Fixpoint is_substring (needle hay : string) : bool :=
  if String.prefix needle hay then true
  else match hay with
       | EmptyString => false
       | String _ rest => is_substring needle rest
       end.

Definition value_is_str (s : string) (v : value) : bool :=
  match v with VStr s' => String.eqb s s' | _ => false end.

(** [k in v] for a string [k]. The objects are the answers of the [openai]
    library: iterating over such a model yields pairs of a field name and
    a value, none of which equals a string. *)
Definition py_in (k : string) (v : value) : result bool :=
  match v with
  | VDict d => Ok (dict_mem k d)
  | VList l => Ok (existsb (value_is_str k) l)
  | VStr s => Ok (is_substring k s)
  | VObj _ _ => Ok false
  | _ => Raise (mk_exn TypeError "argument is not iterable")
  end.

(** [v[k]] for a string [k]. *)
Definition getitem_str (v : value) (k : string) : result value :=
  match v with
  | VDict d =>
      match dict_get k d with
      | Some x => Ok x
      | None => Raise (mk_exn KeyError k)
      end
  | VList _ => Raise (mk_exn TypeError "list indices must be integers")
  | VStr _ => Raise (mk_exn TypeError "string indices must be integers")
  | _ => Raise (mk_exn TypeError "object is not subscriptable")
  end.

(** [v[0]]. The keys of a JSON object are strings, so [0] is never a key. *)
Definition getitem_0 (v : value) : result value :=
  match v with
  | VList [] => Raise (mk_exn IndexError "list index out of range")
  | VList (x :: _) => Ok x
  | VStr EmptyString => Raise (mk_exn IndexError "string index out of range")
  | VStr (String c _) => Ok (VStr (String c EmptyString))
  | VDict _ => Raise (mk_exn KeyError "0")
  | _ => Raise (mk_exn TypeError "object is not subscriptable")
  end.

(** [hasattr(v, a)]: only the objects of a library carry the attributes the
    code asks for. *)
Definition hasattr (v : value) (a : string) : bool :=
  match v with
  | VObj _ attrs => dict_mem a attrs
  | _ => false
  end.

(** [v.a]. *)
Definition getattr (v : value) (a : string) : result value :=
  match v with
  | VObj _ attrs =>
      match dict_get a attrs with
      | Some x => Ok x
      | None => Raise (mk_exn AttributeError a)
      end
  | _ => Raise (mk_exn AttributeError a)
  end.

(** ** Catching exceptions *)

Definition exn_class_eqb (a b : exn_class) : bool :=
  match a, b with
  | KeyError, KeyError | IndexError, IndexError
  | AttributeError, AttributeError | TypeError, TypeError
  | ValueError, ValueError | ImportError, ImportError
  | ConnectionError, ConnectionError | HTTPError, HTTPError
  | JSONDecodeError, JSONDecodeError => true
  | OtherError x, OtherError y => String.eqb x y
  | _, _ => false
  end.

(** [except (c1, ..., cn)] catches [e] when its class is one of the [ci]. *)
Definition caught_by (classes : list exn_class) (e : exn) : bool :=
  existsb (exn_class_eqb (exn_cls e)) classes.

(** ** The two monads: plain results, and methods of a client object *)

Class Monad (m : Type -> Type) : Type := {
  ret : forall {A}, A -> m A;
  bind : forall {A B}, m A -> (A -> m B) -> m B
}.

Notation "x <- c ;; k" := (bind c (fun x => k))
  (at level 61, c at next level, right associativity).
Notation "c ;;; k" := (bind c (fun _ => k))
  (at level 61, right associativity).

#[export] Instance result_monad : Monad result := {
  ret := fun A a => Ok a;
  bind := fun A B c k => match c with Ok a => k a | Raise e => Raise e end
}.

(** [try: c except classes: h] on plain results. *)
Definition try_except {A} (c : result A) (classes : list exn_class)
    (h : exn -> result A) : result A :=
  match c with
  | Ok a => Ok a
  | Raise e => if caught_by classes e then h e else Raise e
  end.

(** *** The outside world *)

Inductive request : Type :=
| HttpPost (url : string) (headers : dict) (json : value)
| HttpGet (url : string)
| SdkCall (method : string) (kwargs : dict).

(** What [requests.post] and [requests.get] return. [json_body] is [None]
    when the body is not JSON. *)
Record http_response : Type := {
  status_code : Z;
  json_body : option value
}.

(** The world answers a request knowing the requests sent before it.
    [rand_tape n] is the [n]-th number the generator of [random] yields. *)
Record World : Type := {
  http_send : list request -> request -> result http_response;
  sdk_call : list request -> request -> result value;
  rand_tape : nat -> Q
}.

(** The state a method runs in: the object [self], the requests issued so
    far and the position on the random tape. *)
Record St (C : Type) : Type := {
  self_ : C;
  trace : list request;
  rand_pos : nat
}.
Arguments self_ {C} s.
Arguments trace {C} s.
Arguments rand_pos {C} s.

Definition M (C A : Type) : Type := World -> St C -> result A * St C.

#[export] Instance M_monad (C : Type) : Monad (M C) := {
  ret := fun A a => fun _ st => (Ok a, st);
  bind := fun A B c k => fun w st =>
    match c w st with
    | (Ok a, st') => k a w st'
    | (Raise e, st') => (Raise e, st')
    end
}.

Definition raise {C A} (e : exn) : M C A := fun _ st => (Raise e, st).

Definition lift {C A} (r : result A) : M C A := fun _ st => (r, st).

Definition get_self {C} : M C C := fun _ st => (Ok (self_ st), st).

(** [try: c except Exception as e: h e]. What [c] did to the state stays. *)
Definition try_except_Exception {C A} (c : M C A) (h : exn -> M C A)
    : M C A :=
  fun w st =>
    match c w st with
    | (Ok a, st') => (Ok a, st')
    | (Raise e, st') => h e w st'
    end.

Definition issue {C} (r : request) (st : St C) : St C :=
  {| self_ := self_ st; trace := trace st ++ [r]; rand_pos := rand_pos st |}.

Definition requests_post {C} (url : string) (headers : dict) (json : value)
    : M C http_response :=
  fun w st =>
    let r := HttpPost url headers json in
    (http_send w (trace st) r, issue r st).

Definition requests_get {C} (url : string) : M C http_response :=
  fun w st =>
    let r := HttpGet url in
    (http_send w (trace st) r, issue r st).

(** A method of the [openai] library: the library sends the request. *)
Definition sdk_create {C} (method : string) (kwargs : dict) : M C value :=
  fun w st =>
    let r := SdkCall method kwargs in
    (sdk_call w (trace st) r, issue r st).

(** [response.raise_for_status()]. *)
Definition raise_for_status (r : http_response) : result unit :=
  if (400 <=? status_code r) && (status_code r <? 600)
  then Raise (mk_exn HTTPError "error status")
  else Ok tt.

(** [response.json()]. *)
Definition response_json (r : http_response) : result value :=
  match json_body r with
  | Some v => Ok v
  | None => Raise (mk_exn JSONDecodeError "Expecting value")
  end.

(** [random.random()]. *)
Definition random_random {C} : M C Q :=
  fun w st =>
    (Ok (rand_tape w (rand_pos st)),
     {| self_ := self_ st; trace := trace st;
        rand_pos := S (rand_pos st) |}).

(** [[random.random() for _ in range(n)]]. *)
Fixpoint random_list {C} (n : nat) : M C (list value) :=
  match n with
  | O => ret []
  | S n' =>
      x <- random_random ;;
      xs <- random_list n' ;;
      ret (VFloat x :: xs)
  end.

(** ** Formatting and shared helpers *)

(** [f"{o}"] for a value that is a string or [None]. *)
Definition fstr (o : option string) : string :=
  match o with Some s => s | None => "None" end.

Definition of_float (t : option Q) : value :=
  match t with Some q => VFloat q | None => VNone end.

Definition of_int (n : option Z) : value :=
  match n with Some z => VInt z | None => VNone end.

(** The process environment a constructor reads: the variables, and whether
    [from openai import OpenAI] succeeds. The call [OpenAI(api_key=...)]
    itself is taken to succeed. *)
Record Env : Type := {
  environ : string -> option string;
  openai_installed : bool
}.

(** ** [.get], iteration and list comprehensions *)

(** [v.get(k, default)]: a method of [dict] only. *)
Definition py_get (v : value) (k : string) (default : value) : result value :=
  match v with
  | VDict d =>
      match dict_get k d with
      | Some x => Ok x
      | None => Ok default
      end
  | _ => Raise (mk_exn AttributeError "get")
  end.

Fixpoint chars (s : string) : list value :=
  match s with
  | EmptyString => []
  | String c rest => VStr (String c EmptyString) :: chars rest
  end.

(** The items [for x in v] visits. *)
Definition py_iter (v : value) : result (list value) :=
  match v with
  | VList l => Ok l
  | VDict d => Ok (map VStr (dict_keys d))
  | VStr s => Ok (chars s)
  | _ => Raise (mk_exn TypeError "object is not iterable")
  end.

(** [[f(x) for x in l]]: the first exception ends the comprehension. *)
Fixpoint map_result {A B} (f : A -> result B) (l : list A)
    : result (list B) :=
  match l with
  | [] => Ok []
  | x :: l' =>
      y <- f x ;;
      ys <- map_result f l' ;;
      ret (y :: ys)
  end.

(** [isinstance(v, dict)]. *)
Definition isinstance_dict (v : value) : bool :=
  match v with VDict _ => true | _ => false end.

(** [response.json().get("models", [])] and
    [[model["name"] for model in models]]. *)
Definition model_names (body : value) : result (list value) :=
  models <- py_get body "models" (VList []) ;;
  items <- py_iter models ;;
  map_result (fun model => getitem_str model "name") items.

(** [requests.post(...)], [raise_for_status()], [json()]. *)
Definition post_json {C} (url : string) (headers : dict) (payload : dict)
    : M C value :=
  response <- requests_post url headers (VDict payload) ;;
  lift (raise_for_status response) ;;;
  lift (response_json response).

(** * demo/ai_client.py *)

Module ai_client.

Inductive AIProvider : Type := OPENAI | DEEPSEEK | OLLAMA | LOCAL.

(** [provider.value]. *)
Definition AIProvider_value (p : AIProvider) : string :=
  match p with
  | OPENAI => "openai"
  | DEEPSEEK => "deepseek"
  | OLLAMA => "ollama"
  | LOCAL => "local"
  end.

Definition AIProvider_eqb (a b : AIProvider) : bool :=
  match a, b with
  | OPENAI, OPENAI | DEEPSEEK, DEEPSEEK | OLLAMA, OLLAMA | LOCAL, LOCAL => true
  | _, _ => false
  end.

(** [AIProvider(s)]: lookup of a member by value. *)
Definition AIProvider_of_value (s : string) : result AIProvider :=
  if String.eqb s "openai" then Ok OPENAI
  else if String.eqb s "deepseek" then Ok DEEPSEEK
  else if String.eqb s "ollama" then Ok OLLAMA
  else if String.eqb s "local" then Ok LOCAL
  else Raise (mk_exn ValueError ("'" ++ s ++ "' is not a valid AIProvider")).

(** The argument [provider: Union[str, AIProvider]]. *)
Inductive provider_arg : Type :=
| ByEnum (p : AIProvider)
| ByName (s : string).

(** [provider if isinstance(provider, AIProvider) else AIProvider(provider)]. *)
Definition resolve_provider (provider : provider_arg) : result AIProvider :=
  match provider with
  | ByEnum p => Ok p
  | ByName s => AIProvider_of_value s
  end.

(** The handle [OpenAI(api_key=...)] of the [openai] library. *)
Inductive OpenAI : Type := OpenAI_client (api_key : string).

(** The attributes of an [AIClient]. [client] is only assigned (and only
    read) when the provider is [OPENAI]; it is [None] elsewhere. *)
Record AIClient : Type := {
  provider : AIProvider;
  use_local_fallback : bool;
  api_key : option string;
  base_url : option string;
  client : option OpenAI;
  headers : dict
}.

(** The end of [__init__]: the request headers. *)
Definition make_headers (key : option string) : dict :=
  if truthy_str key
  then [("Authorization", VStr ("Bearer " ++ fstr key));
        ("Content-Type", VStr "application/json")]
  else [("Content-Type", VStr "application/json")].

(** [AIClient.__init__]. *)
Definition __init__ (env : Env) (provider : provider_arg)
    (api_key base_url : option string) (use_local_fallback : bool)
    : result AIClient :=
  p <- resolve_provider provider ;;
  match p with
  | OPENAI =>
      let key := or_str api_key (environ env "OPENAI_API_KEY") in
      if negb (truthy_str key) && negb use_local_fallback
      then Raise (mk_exn ValueError
        "必须提供OpenAI API密钥或设置OPENAI_API_KEY环境变量")
      else
        Ok {| provider := p;
              use_local_fallback := use_local_fallback;
              api_key := key;
              base_url := or_str base_url (Some "https://api.openai.com/v1");
              client :=
                if truthy_str key
                then if openai_installed env
                     then Some (OpenAI_client (fstr key))
                     else None
                else None;
              headers := make_headers key |}
  | DEEPSEEK =>
      let key := or_str api_key (environ env "DEEPSEEK_API_KEY") in
      if negb (truthy_str key) && negb use_local_fallback
      then Raise (mk_exn ValueError
        "必须提供DeepSeek API密钥或设置DEEPSEEK_API_KEY环境变量")
      else
        Ok {| provider := p;
              use_local_fallback := use_local_fallback;
              api_key := key;
              base_url := or_str base_url (Some "https://api.deepseek.com/v1");
              client := None;
              headers := make_headers key |}
  | OLLAMA =>
      Ok {| provider := p;
            use_local_fallback := use_local_fallback;
            api_key := api_key;
            base_url := or_str base_url (Some "http://localhost:11434");
            client := None;
            headers := make_headers api_key |}
  | LOCAL =>
      Ok {| provider := p;
            use_local_fallback := use_local_fallback;
            api_key := None;
            base_url := None;
            client := None;
            headers := make_headers None |}
  end.

(** *** Default models *)

Definition default_chat_model (p : AIProvider) : string :=
  match p with
  | OPENAI => "gpt-3.5-turbo"
  | DEEPSEEK => "deepseek-chat"
  | OLLAMA => "llama2"
  | LOCAL => "local-model"
  end.

Definition default_text_model (p : AIProvider) : string :=
  match p with
  | OPENAI => "gpt-3.5-turbo-instruct"
  | DEEPSEEK => "deepseek-coder"
  | OLLAMA => "llama2"
  | LOCAL => "local-model"
  end.

Definition default_embedding_model (p : AIProvider) : string :=
  match p with
  | OPENAI => "text-embedding-ada-002"
  | DEEPSEEK => "deepseek-embedding"
  | OLLAMA => "llama2"
  | LOCAL => "local-embedding"
  end.

(** [if model is None: model = <default>]. *)
Definition model_or (model : option string) (default : string) : string :=
  match model with Some m => m | None => default end.

(** *** Payloads *)

(** The payload of the OpenAI and DeepSeek branches; [key] is ["messages"]
    or ["prompt"]. *)
Definition hosted_payload (key : string) (input : value) (model : string)
    (temperature : option Q) (max_tokens : option Z) (kwargs : dict)
    : dict :=
  let payload :=
    dict_update [("model", VStr model); (key, input);
                 ("temperature", of_float temperature)] kwargs in
  match max_tokens with
  | Some n => dict_set "max_tokens" (VInt n) payload
  | None => payload
  end.

(** The [options] of the Ollama branch. *)
Definition ollama_options (temperature : option Q) (max_tokens : option Z)
    : dict :=
  let options := [] in
  let options :=
    match temperature with
    | Some t => dict_set "temperature" (VFloat t) options
    | None => options
    end in
  match max_tokens with
  | Some n => dict_set "num_predict" (VInt n) options
  | None => options
  end.

(** The payload of the Ollama branch; the keyword arguments are not used. *)
Definition ollama_payload (key : string) (input : value) (model : string)
    (temperature : option Q) (max_tokens : option Z) : dict :=
  let payload :=
    [("model", VStr model); (key, input); ("stream", VBool false)] in
  let options := ollama_options temperature max_tokens in
  match options with
  | [] => payload
  | _ :: _ => dict_set "options" (VDict options) payload
  end.

(** *** The local stub *)

Definition _local_chat_completion (messages : value) (model : string)
    (temperature : option Q) (max_tokens : option Z) (kwargs : dict)
    : M AIClient value :=
  ret (VDict
    [("choices", VList [VDict
       [("message", VDict
          [("content", VStr
"这是一个本地模型生成的回复。在实际应用中，您可以集成真正的本地模型。");
           ("role", VStr "assistant")]);
        ("finish_reason", VStr "stop");
        ("index", VInt 0)]]);
     ("model", VStr model);
     ("usage", VDict [("completion_tokens", VInt 20);
                      ("prompt_tokens", VInt 10);
                      ("total_tokens", VInt 30)])]).

Definition _local_text_completion (prompt : string) (model : string)
    (temperature : option Q) (max_tokens : option Z) (kwargs : dict)
    : M AIClient value :=
  ret (VDict
    [("choices", VList [VDict
       [("text", VStr
"这是一个本地模型生成的文本完成。在实际应用中，您可以集成真正的本地模型。");
        ("finish_reason", VStr "stop");
        ("index", VInt 0)]]);
     ("model", VStr model);
     ("usage", VDict [("completion_tokens", VInt 20);
                      ("prompt_tokens", VInt 10);
                      ("total_tokens", VInt 30)])]).

Definition _local_embedding (text : string) (model : string)
    : M AIClient value :=
  xs <- random_list 1536%nat ;;
  ret (VList xs).

(** *** The three operations *)

Definition is_some {A} (o : option A) : bool :=
  match o with Some _ => true | None => false end.

(** The [try] block of [chat_completion]. *)
Definition chat_completion_try (self : AIClient) (messages : value)
    (model : string) (temperature : option Q) (max_tokens : option Z)
    (kwargs : dict) : M AIClient value :=
  if AIProvider_eqb (provider self) OPENAI && is_some (client self) then
    sdk_create "chat.completions.create"
      ([("model", VStr model); ("messages", messages);
        ("temperature", of_float temperature);
        ("max_tokens", of_int max_tokens)] ++ kwargs)%list
  else if AIProvider_eqb (provider self) OPENAI then
    post_json (fstr (base_url self) ++ "/chat/completions") (headers self)
      (hosted_payload "messages" messages model temperature max_tokens kwargs)
  else if AIProvider_eqb (provider self) DEEPSEEK then
    post_json (fstr (base_url self) ++ "/chat/completions") (headers self)
      (hosted_payload "messages" messages model temperature max_tokens kwargs)
  else if AIProvider_eqb (provider self) OLLAMA then
    post_json (fstr (base_url self) ++ "/api/chat") (headers self)
      (ollama_payload "messages" messages model temperature max_tokens)
  else
    _local_chat_completion messages model temperature max_tokens kwargs.

(** The condition of the [except] block: fall back to the stub? *)
Definition falls_back (self : AIClient) : bool :=
  use_local_fallback self && negb (AIProvider_eqb (provider self) LOCAL).

Definition chat_completion (messages : value) (model : option string)
    (temperature : option Q) (max_tokens : option Z) (kwargs : dict)
    : M AIClient value :=
  self <- get_self ;;
  let model := model_or model (default_chat_model (provider self)) in
  try_except_Exception
    (chat_completion_try self messages model temperature max_tokens kwargs)
    (fun e =>
       if falls_back self
       then _local_chat_completion messages model temperature max_tokens
              kwargs
       else raise e).

(** The [try] block of [text_completion]. *)
Definition text_completion_try (self : AIClient) (prompt : string)
    (model : string) (temperature : option Q) (max_tokens : option Z)
    (kwargs : dict) : M AIClient value :=
  if AIProvider_eqb (provider self) OPENAI && is_some (client self) then
    sdk_create "completions.create"
      ([("model", VStr model); ("prompt", VStr prompt);
        ("temperature", of_float temperature);
        ("max_tokens", of_int max_tokens)] ++ kwargs)%list
  else if AIProvider_eqb (provider self) OPENAI then
    post_json (fstr (base_url self) ++ "/completions") (headers self)
      (hosted_payload "prompt" (VStr prompt) model temperature max_tokens
         kwargs)
  else if AIProvider_eqb (provider self) DEEPSEEK then
    post_json (fstr (base_url self) ++ "/completions") (headers self)
      (hosted_payload "prompt" (VStr prompt) model temperature max_tokens
         kwargs)
  else if AIProvider_eqb (provider self) OLLAMA then
    post_json (fstr (base_url self) ++ "/api/generate") (headers self)
      (ollama_payload "prompt" (VStr prompt) model temperature max_tokens)
  else
    _local_text_completion prompt model temperature max_tokens kwargs.

Definition text_completion (prompt : string) (model : option string)
    (temperature : option Q) (max_tokens : option Z) (kwargs : dict)
    : M AIClient value :=
  self <- get_self ;;
  let model := model_or model (default_text_model (provider self)) in
  try_except_Exception
    (text_completion_try self prompt model temperature max_tokens kwargs)
    (fun e =>
       if falls_back self
       then _local_text_completion prompt model temperature max_tokens
              kwargs
       else raise e).

(** [response.json()["data"][0]["embedding"]]. *)
Definition hosted_embedding_of (body : value) : result value :=
  data <- getitem_str body "data" ;;
  first <- getitem_0 data ;;
  getitem_str first "embedding".

(** [response.data[0].embedding] on the object of the library. *)
Definition sdk_embedding_of (response : value) : result value :=
  data <- getattr response "data" ;;
  first <- getitem_0 data ;;
  getattr first "embedding".

(** The [try] block of [create_embedding]. *)
Definition create_embedding_try (self : AIClient) (text : string)
    (model : string) : M AIClient value :=
  if AIProvider_eqb (provider self) OPENAI && is_some (client self) then
    response <- sdk_create "embeddings.create"
                  [("model", VStr model); ("input", VStr text)] ;;
    lift (sdk_embedding_of response)
  else if AIProvider_eqb (provider self) OPENAI then
    body <- post_json (fstr (base_url self) ++ "/embeddings") (headers self)
              [("model", VStr model); ("input", VStr text)] ;;
    lift (hosted_embedding_of body)
  else if AIProvider_eqb (provider self) DEEPSEEK then
    body <- post_json (fstr (base_url self) ++ "/embeddings") (headers self)
              [("model", VStr model); ("input", VStr text)] ;;
    lift (hosted_embedding_of body)
  else if AIProvider_eqb (provider self) OLLAMA then
    body <- post_json (fstr (base_url self) ++ "/api/embeddings")
              (headers self)
              [("model", VStr model); ("prompt", VStr text)] ;;
    lift (getitem_str body "embedding")
  else
    _local_embedding text model.

Definition create_embedding (text : string) (model : option string)
    : M AIClient value :=
  self <- get_self ;;
  let model := model_or model (default_embedding_model (provider self)) in
  try_except_Exception
    (create_embedding_try self text model)
    (fun e =>
       if falls_back self
       then _local_embedding text model
       else raise e).

(** *** Extraction of the text *)

Definition get_completion_text (self : AIClient) (response : value)
    : result value :=
  try_except
    (if AIProvider_eqb (provider self) OPENAI && hasattr response "choices"
     then
       choices <- getattr response "choices" ;;
       first <- getitem_0 choices ;;
       message <- getattr first "message" ;;
       getattr message "content"
     else
       is_ollama <- (if AIProvider_eqb (provider self) OLLAMA
                     then py_in "message" response else Ok false) ;;
       if (is_ollama : bool) then
         message <- getitem_str response "message" ;;
         getitem_str message "content"
       else
         is_standard <- (if isinstance_dict response
                         then py_in "choices" response else Ok false) ;;
         if (is_standard : bool) then
           choices <- getitem_str response "choices" ;;
           first <- getitem_0 choices ;;
           message <- getitem_str first "message" ;;
           getitem_str message "content"
         else Ok (VStr ""))
    [KeyError; IndexError; AttributeError]
    (fun _ => Ok (VStr "")).

Definition get_text_completion (self : AIClient) (response : value)
    : result value :=
  try_except
    (if AIProvider_eqb (provider self) OPENAI && hasattr response "choices"
     then
       choices <- getattr response "choices" ;;
       first <- getitem_0 choices ;;
       getattr first "text"
     else
       is_ollama <- (if AIProvider_eqb (provider self) OLLAMA
                     then py_in "response" response else Ok false) ;;
       if (is_ollama : bool) then
         getitem_str response "response"
       else
         is_standard <- (if isinstance_dict response
                         then py_in "choices" response else Ok false) ;;
         if (is_standard : bool) then
           choices <- getitem_str response "choices" ;;
           first <- getitem_0 choices ;;
           getitem_str first "text"
         else Ok (VStr ""))
    [KeyError; IndexError; AttributeError]
    (fun _ => Ok (VStr "")).

(** *** Listing the models of an Ollama server *)

Definition list_ollama_models : M AIClient (list value) :=
  self <- get_self ;;
  if negb (AIProvider_eqb (provider self) OLLAMA) then ret []
  else
    try_except_Exception
      (response <- requests_get (fstr (base_url self) ++ "/api/tags") ;;
       lift (raise_for_status response) ;;;
       body <- lift (response_json response) ;;
       lift (model_names body))
      (fun e => ret []).

End ai_client.

(** * demo/ollama_client.py *)

Module ollama_client.

Record OllamaClient : Type := {
  base_url : string;
  api_key : option string;
  headers : dict
}.

(** [OllamaClient.__init__]; [base_url] defaults to
    ["http://localhost:11434"] and [api_key] to [None]. *)
Definition __init__ (base_url : string) (api_key : option string)
    : OllamaClient :=
  let headers := [("Content-Type", VStr "application/json")] in
  let headers :=
    if truthy_str api_key
    then dict_set "Authorization" (VStr ("Bearer " ++ fstr api_key)) headers
    else headers in
  {| base_url := base_url; api_key := api_key; headers := headers |}.

(** The [options] built from [temperature] and [max_tokens]. *)
Definition base_options (temperature : option Q) (max_tokens : option Z)
    : dict :=
  let options := [] in
  let options :=
    match temperature with
    | Some t => dict_set "temperature" (VFloat t) options
    | None => options
    end in
  match max_tokens with
  | Some n => dict_set "num_predict" (VInt n) options
  | None => options
  end.

(** One turn of the loop over [kwargs.items()]. The code only ever stores a
    dict under ["options"], so the last case is not reached. *)
Definition add_extra (reserved : list string) (payload : dict)
    (kv : string * value) : dict :=
  let (key, v) := kv in
  if existsb (String.eqb key) reserved then payload
  else
    let payload :=
      if dict_mem "options" payload then payload
      else dict_set "options" (VDict []) payload in
    match dict_get "options" payload with
    | Some (VDict options) =>
        dict_set "options" (VDict (dict_set key v options)) payload
    | _ => payload
    end.

(** The payload of [chat_completion] ([key] is ["messages"]) and of
    [text_completion] ([key] is ["prompt"]). *)
Definition build_payload (key : string) (input : value) (model : string)
    (temperature : option Q) (max_tokens : option Z) (kwargs : dict)
    : dict :=
  let payload :=
    [("model", VStr model); (key, input); ("stream", VBool false)] in
  let options := base_options temperature max_tokens in
  let payload :=
    match options with
    | [] => payload
    | _ :: _ => dict_set "options" (VDict options) payload
    end in
  fold_left (add_extra ["model"; key; "stream"; "options"]) kwargs payload.

(** [except Exception as e: print(...); raise] lets the exception through. *)
Definition chat_completion (messages : value) (model : string)
    (temperature : option Q) (max_tokens : option Z) (kwargs : dict)
    : M OllamaClient value :=
  self <- get_self ;;
  try_except_Exception
    (post_json (base_url self ++ "/api/chat") (headers self)
       (build_payload "messages" messages model temperature max_tokens
          kwargs))
    (fun e => raise e).

Definition text_completion (prompt : string) (model : string)
    (temperature : option Q) (max_tokens : option Z) (kwargs : dict)
    : M OllamaClient value :=
  self <- get_self ;;
  try_except_Exception
    (post_json (base_url self ++ "/api/generate") (headers self)
       (build_payload "prompt" (VStr prompt) model temperature max_tokens
          kwargs))
    (fun e => raise e).

Definition list_models : M OllamaClient (list value) :=
  self <- get_self ;;
  try_except_Exception
    (response <- requests_get (base_url self ++ "/api/tags") ;;
     lift (raise_for_status response) ;;;
     body <- lift (response_json response) ;;
     lift (model_names body))
    (fun e => ret []).

(** [OllamaClient.get_completion_text]. *)
Definition get_completion_text (response : value) : result value :=
  try_except
    (has_message <- py_in "message" response ;;
     if (has_message : bool) then
       message <- getitem_str response "message" ;;
       getitem_str message "content"
     else Ok (VStr ""))
    [KeyError; IndexError; AttributeError]
    (fun _ => Ok (VStr "")).

(** [OllamaClient.get_text_completion]. *)
Definition get_text_completion (response : value) : result value :=
  try_except
    (has_response <- py_in "response" response ;;
     if (has_response : bool) then getitem_str response "response"
     else Ok (VStr ""))
    [KeyError; IndexError; AttributeError]
    (fun _ => Ok (VStr "")).

(** [OllamaClient.create_embedding]; [model] defaults to ["llama2"]. *)
Definition create_embedding (text : string) (model : string)
    : M OllamaClient value :=
  self <- get_self ;;
  try_except_Exception
    (body <- post_json (base_url self ++ "/api/embeddings") (headers self)
               [("model", VStr model); ("prompt", VStr text)] ;;
     lift (getitem_str body "embedding"))
    (fun e => raise e).

(** [OllamaClient.pull_model]. *)
Definition pull_model (model_name : string) : M OllamaClient value :=
  self <- get_self ;;
  try_except_Exception
    (post_json (base_url self ++ "/api/pull") (headers self)
       [("name", VStr model_name)])
    (fun e => raise e).

End ollama_client.

(** * demo/deepseek_client.py *)

Module deepseek_client.

Record DeepSeekClient : Type := {
  api_key : option string;
  base_url : string;
  headers : dict
}.

(** [DeepSeekClient.__init__]; [base_url] defaults to
    ["https://api.deepseek.com/v1"]. *)
Definition __init__ (env : Env) (api_key : option string)
    (base_url : string) : result DeepSeekClient :=
  let key := or_str api_key (environ env "DEEPSEEK_API_KEY") in
  if negb (truthy_str key)
  then Raise (mk_exn ValueError
    "必须提供DeepSeek API密钥或设置DEEPSEEK_API_KEY环境变量")
  else
    Ok {| api_key := key;
          base_url := base_url;
          headers := [("Authorization", VStr ("Bearer " ++ fstr key));
                      ("Content-Type", VStr "application/json")] |}.

(** The payload of [chat_completion] ([key] is ["messages"]) and of
    [text_completion] ([key] is ["prompt"]). *)
Definition build_payload (key : string) (input : value) (model : string)
    (temperature : option Q) (max_tokens : option Z) (kwargs : dict)
    : dict :=
  let payload :=
    dict_update [("model", VStr model); (key, input);
                 ("temperature", of_float temperature)] kwargs in
  match max_tokens with
  | Some n => dict_set "max_tokens" (VInt n) payload
  | None => payload
  end.

Definition chat_completion (messages : value) (model : string)
    (temperature : option Q) (max_tokens : option Z) (kwargs : dict)
    : M DeepSeekClient value :=
  self <- get_self ;;
  try_except_Exception
    (post_json (base_url self ++ "/chat/completions") (headers self)
       (build_payload "messages" messages model temperature max_tokens
          kwargs))
    (fun e => raise e).

Definition get_completion_text (response : value) : result value :=
  try_except
    (choices <- getitem_str response "choices" ;;
     first <- getitem_0 choices ;;
     message <- getitem_str first "message" ;;
     getitem_str message "content")
    [KeyError; IndexError]
    (fun _ => Ok (VStr "")).

Definition text_completion (prompt : string) (model : string)
    (temperature : option Q) (max_tokens : option Z) (kwargs : dict)
    : M DeepSeekClient value :=
  self <- get_self ;;
  try_except_Exception
    (post_json (base_url self ++ "/completions") (headers self)
       (build_payload "prompt" (VStr prompt) model temperature max_tokens
          kwargs))
    (fun e => raise e).

Definition get_text_completion (response : value) : result value :=
  try_except
    (choices <- getitem_str response "choices" ;;
     first <- getitem_0 choices ;;
     getitem_str first "text")
    [KeyError; IndexError]
    (fun _ => Ok (VStr "")).

Definition create_embedding (text : string) (model : string)
    : M DeepSeekClient value :=
  self <- get_self ;;
  try_except_Exception
    (body <- post_json (base_url self ++ "/embeddings") (headers self)
               [("model", VStr model); ("input", VStr text)] ;;
     lift (data <- getitem_str body "data" ;;
           first <- getitem_0 data ;;
           getitem_str first "embedding"))
    (fun e => raise e).

End deepseek_client.

(** * Notions used by the statements *)

Import ai_client.

(** The three logical operations with their arguments. *)
Inductive call : Type :=
| ChatCall (messages : value) (model : option string)
    (temperature : option Q) (max_tokens : option Z) (kwargs : dict)
| TextCall (prompt : string) (model : option string)
    (temperature : option Q) (max_tokens : option Z) (kwargs : dict)
| EmbeddingCall (text : string) (model : option string).

(** The method a call runs. *)
Definition invoke (c : call) : M AIClient value :=
  match c with
  | ChatCall messages model temperature max_tokens kwargs =>
      chat_completion messages model temperature max_tokens kwargs
  | TextCall prompt model temperature max_tokens kwargs =>
      text_completion prompt model temperature max_tokens kwargs
  | EmbeddingCall text model => create_embedding text model
  end.

(** The provider call of a method: its [try] block, run with the model the
    method has resolved. *)
Definition provider_call (self : AIClient) (c : call) : M AIClient value :=
  match c with
  | ChatCall messages model temperature max_tokens kwargs =>
      chat_completion_try self messages
        (model_or model (default_chat_model (provider self)))
        temperature max_tokens kwargs
  | TextCall prompt model temperature max_tokens kwargs =>
      text_completion_try self prompt
        (model_or model (default_text_model (provider self)))
        temperature max_tokens kwargs
  | EmbeddingCall text model =>
      create_embedding_try self text
        (model_or model (default_embedding_model (provider self)))
  end.

(** The local stub of a method, on the arguments the method hands to it. *)
Definition offline_stub (self : AIClient) (c : call) : M AIClient value :=
  match c with
  | ChatCall messages model temperature max_tokens kwargs =>
      _local_chat_completion messages
        (model_or model (default_chat_model (provider self)))
        temperature max_tokens kwargs
  | TextCall prompt model temperature max_tokens kwargs =>
      _local_text_completion prompt
        (model_or model (default_text_model (provider self)))
        temperature max_tokens kwargs
  | EmbeddingCall text model =>
      _local_embedding text
        (model_or model (default_embedding_model (provider self)))
  end.

(** A [ProviderCallFailed] condition as the specification describes it: an
    exception of that class that carries the provider and has the transport
    error as its cause. *)
Definition is_ProviderCallFailed (p : AIProvider) (original raised : exn)
    : Prop :=
  exn_cls raised = OtherError "ProviderCallFailed" /\
  In ("provider", AIProvider_value p) (exn_attrs raised) /\
  exn_cause raised = Some original.

(** Providers whose constructor looks for a credential, and where. *)
Definition requires_credential (p : AIProvider) : bool :=
  match p with
  | OPENAI | DEEPSEEK => true
  | OLLAMA | LOCAL => false
  end.

Definition credential_variable (p : AIProvider) : option string :=
  match p with
  | OPENAI => Some "OPENAI_API_KEY"
  | DEEPSEEK => Some "DEEPSEEK_API_KEY"
  | OLLAMA | LOCAL => None
  end.

(** A credential is supplied when the argument or the environment variable
    is a non-empty string ([None] and [""] are both false in Python). *)
Definition credential_supplied (env : Env) (p : AIProvider)
    (api_key : option string) : bool :=
  truthy_str api_key ||
  match credential_variable p with
  | Some name => truthy_str (environ env name)
  | None => false
  end.

(** The three defaults of a provider are pairwise distinct. *)
Definition distinct_defaults (p : AIProvider) : Prop :=
  default_chat_model p <> default_text_model p /\
  default_chat_model p <> default_embedding_model p /\
  default_text_model p <> default_embedding_model p.

(** [create_embedding] against a remote provider, in two steps: the request
    with its decoding, then the extraction of the vector from the answer. *)
Definition embedding_fetch (self : AIClient) (text : string) (model : string)
    : M AIClient value :=
  if AIProvider_eqb (provider self) OPENAI && is_some (client self) then
    sdk_create "embeddings.create"
      [("model", VStr model); ("input", VStr text)]
  else if AIProvider_eqb (provider self) OPENAI
          || AIProvider_eqb (provider self) DEEPSEEK then
    post_json (fstr (ai_client.base_url self) ++ "/embeddings")
      (ai_client.headers self)
      [("model", VStr model); ("input", VStr text)]
  else
    post_json (fstr (ai_client.base_url self) ++ "/api/embeddings")
      (ai_client.headers self)
      [("model", VStr model); ("prompt", VStr text)].

Definition embedding_extract (self : AIClient) (answer : value)
    : result value :=
  if AIProvider_eqb (provider self) OPENAI && is_some (client self) then
    sdk_embedding_of answer
  else if AIProvider_eqb (provider self) OPENAI
          || AIProvider_eqb (provider self) DEEPSEEK then
    hosted_embedding_of answer
  else
    getitem_str answer "embedding".

(** A computation leaves the object [self] as it found it. *)
Definition preserves_self {C A} (c : M C A) : Prop :=
  forall w st, self_ (snd (c w st)) = self_ st.

(** A completion request: chat on messages, or text on a prompt. *)
Inductive completion : Type :=
| Chat (messages : value)
| Text (prompt : string).

(** The key of the input in a payload, and the input as a value. *)
Definition input_key (k : completion) : string :=
  match k with Chat _ => "messages" | Text _ => "prompt" end.

Definition input_value (k : completion) : value :=
  match k with Chat messages => messages | Text prompt => VStr prompt end.

(** The method of [AIClient] that serves a completion request. *)
Definition complete (k : completion) (model : option string)
    (temperature : option Q) (max_tokens : option Z) (kwargs : dict)
    : M AIClient value :=
  match k with
  | Chat messages =>
      chat_completion messages model temperature max_tokens kwargs
  | Text prompt =>
      text_completion prompt model temperature max_tokens kwargs
  end.

(** The method of [OllamaClient] that serves a completion request. *)
Definition ollama_complete (k : completion) (model : string)
    (temperature : option Q) (max_tokens : option Z) (kwargs : dict)
    : M ollama_client.OllamaClient value :=
  match k with
  | Chat messages =>
      ollama_client.chat_completion messages model temperature max_tokens
        kwargs
  | Text prompt =>
      ollama_client.text_completion prompt model temperature max_tokens
        kwargs
  end.

(** Python binds a keyword that names a parameter to that parameter, so
    [**kwargs] never holds [model], [temperature], [max_tokens] or the name
    of the first parameter. *)
Definition kwargs_ok (k : completion) (kwargs : dict) : bool :=
  forallb (fun name => negb (dict_mem name kwargs))
    [input_key k; "model"; "temperature"; "max_tokens"].

(** The computation posts exactly one request, with this JSON payload. *)
Definition posts {C A} (c : M C A) (w : World) (st : St C) (payload : dict)
    : Prop :=
  exists url headers,
    trace (snd (c w st))
    = (trace st ++ [HttpPost url headers (VDict payload)])%list.

(** [temperature] and [max_tokens] are top-level fields; [max_tokens] is
    absent when it was not given. *)
Definition top_level_controls (payload : dict) (temperature : option Q)
    (max_tokens : option Z) : Prop :=
  dict_get "temperature" payload = Some (of_float temperature) /\
  dict_get "max_tokens" payload = option_map VInt max_tokens.

(** The dict under ["options"], empty when there is none. *)
Definition payload_options (payload : dict) : dict :=
  match dict_get "options" payload with
  | Some (VDict options) => options
  | _ => []
  end.

(** ["stream"] is false and the generation controls are not top-level
    fields. *)
Definition not_streaming_no_top_level (payload : dict) : Prop :=
  dict_get "stream" payload = Some (VBool false) /\
  dict_get "temperature" payload = None /\
  dict_get "max_tokens" payload = None /\
  dict_get "num_predict" payload = None.

(** The controls that were given are under ["options"], [max_tokens] under
    the name ["num_predict"]. *)
Definition nested_controls (payload : dict) (temperature : option Q)
    (max_tokens : option Z) : Prop :=
  not_streaming_no_top_level payload /\
  dict_get "temperature" (payload_options payload)
    = option_map VFloat temperature /\
  dict_get "num_predict" (payload_options payload)
    = option_map VInt max_tokens.

(** ["options"], when present, is a dict. *)
Definition options_is_dict (payload : dict) : Prop :=
  match dict_get "options" payload with
  | None | Some (VDict _) => True
  | Some _ => False
  end.

(** The exceptions of a failed subscript. *)
Definition lookup_error (e : exn) : Prop :=
  exn_cls e = KeyError \/ exn_cls e = IndexError \/ exn_cls e = TypeError.

(** A computation that raises nothing but such exceptions. *)
Definition raises_lookup_errors {A} (r : result A) : Prop :=
  forall e, r = Raise e -> lookup_error e.

(** * Fixtures: concrete worlds, environments and clients *)

(** No variable is set and the [openai] library is missing. *)
Definition empty_env : Env :=
  {| environ := fun _ => None; openai_installed := false |}.

(** Only [DEEPSEEK_API_KEY] is set. *)
Definition deepseek_env : Env :=
  {| environ := fun name =>
       if String.eqb name "DEEPSEEK_API_KEY" then Some "sk-test" else None;
     openai_installed := false |}.

Definition connection_refused : exn :=
  mk_exn ConnectionError "Connection refused".

(** The [n]-th random number is [n / (n + 1)]. *)
Definition sample_tape (n : nat) : Q := Z.of_nat n # Pos.of_succ_nat n.

(** Every request fails: no server is listening. *)
Definition offline_world : World :=
  {| http_send := fun _ _ => Raise connection_refused;
     sdk_call := fun _ _ => Raise connection_refused;
     rand_tape := sample_tape |}.

(** Every request is answered with status 200 and the given JSON body. *)
Definition replying_world (body : value) : World :=
  {| http_send := fun _ _ =>
       Ok {| status_code := 200; json_body := Some body |};
     sdk_call := fun _ _ => Ok body;
     rand_tape := sample_tape |}.

Definition client_of (p : AIProvider) (fallback : bool) (url : option string)
    : AIClient :=
  {| provider := p;
     use_local_fallback := fallback;
     api_key := None;
     base_url := url;
     client := None;
     headers := make_headers None |}.

Definition fresh {C} (self : C) : St C :=
  {| self_ := self; trace := []; rand_pos := 0 |}.

Definition hello_messages : value :=
  VList [VDict [("role", VStr "user"); ("content", VStr "hi")]].

(** The answer of [GET /api/tags] of a server with two models. *)
Definition tags_body : value :=
  VDict [("models",
          VList [VDict [("name", VStr "llama2:latest")];
                 VDict [("name", VStr "mistral:7b")]])].

Definition ollama_fixture : ollama_client.OllamaClient :=
  ollama_client.__init__ "http://localhost:11434" None.

(** A DeepSeek client without a key, with the fallback enabled. *)
Definition deepseek_fixture : AIClient :=
  client_of DEEPSEEK true (Some "https://api.deepseek.com/v1").

Definition top_p_extra : dict := [("top_p", VFloat (9 # 10))].

(** A chat answer whose only choice has no message object. *)
Definition choice_without_message : value :=
  VDict [("choices", VList [VDict [("index", VInt 0); ("message", VNone)]])].

(** An Ollama answer whose ["message"] is a plain string. *)
Definition message_as_string : value :=
  VDict [("message", VStr "hello")].

(** A text answer whose choices are plain strings. *)
Definition choices_as_strings : value :=
  VDict [("choices", VList [VStr "hello"])].

Definition ollama_aiclient : AIClient :=
  client_of OLLAMA true (Some "http://localhost:11434").

(** The fixed texts of the two local stubs. *)
Definition chat_placeholder : string :=
"这是一个本地模型生成的回复。在实际应用中，您可以集成真正的本地模型。".

Definition text_placeholder : string :=
"这是一个本地模型生成的文本完成。在实际应用中，您可以集成真正的本地模型。".

(** The client reaches its provider through [requests] (not through the
    [openai] library, and not the local stub). *)
Definition uses_requests (self : AIClient) : bool :=
  match provider self with
  | OPENAI => negb (is_some (client self))
  | DEEPSEEK | OLLAMA => true
  | LOCAL => false
  end.

(** The path of the completion endpoint of a provider. *)
Definition completion_path (p : AIProvider) (k : completion) : string :=
  match p, k with
  | OLLAMA, Chat _ => "/api/chat"
  | OLLAMA, Text _ => "/api/generate"
  | _, Chat _ => "/chat/completions"
  | _, Text _ => "/completions"
  end.

(** An entry of the list of models that has a name. *)
Definition has_name (entry name : value) : Prop :=
  exists d, entry = VDict d /\ dict_get "name" d = Some name.

(** The names reserved by the loop of [OllamaClient] over the extras. *)
Definition ollama_reserved (k : completion) (name : string) : bool :=
  existsb (String.eqb name) ["model"; input_key k; "stream"; "options"].

(** The method of [DeepSeekClient] that serves a completion request. *)
Definition deepseek_complete (k : completion) (model : string)
    (temperature : option Q) (max_tokens : option Z) (kwargs : dict)
    : M deepseek_client.DeepSeekClient value :=
  match k with
  | Chat messages =>
      deepseek_client.chat_completion messages model temperature max_tokens
        kwargs
  | Text prompt =>
      deepseek_client.text_completion prompt model temperature max_tokens
        kwargs
  end.

(** A server that answers every request with status 200 and this body. *)
Definition ok_response (body : value) : http_response :=
  {| status_code := 200; json_body := Some body |}.

(** A chat answer in the format of OpenAI and DeepSeek. *)
Definition hosted_chat_answer (text : string) : value :=
  VDict [("id", VStr "chatcmpl-1");
         ("choices",
          VList [VDict [("index", VInt 0);
                        ("message", VDict [("role", VStr "assistant");
                                           ("content", VStr text)]);
                        ("finish_reason", VStr "stop")]])].

(** A chat answer in the format of Ollama. *)
Definition ollama_chat_answer (text : string) : value :=
  VDict [("model", VStr "llama2");
         ("message", VDict [("role", VStr "assistant");
                            ("content", VStr text)]);
         ("done", VBool true)].


(** The base URL a constructor falls back on. *)
Definition default_base_url (p : AIProvider) : option string :=
  match p with
  | OPENAI => Some "https://api.openai.com/v1"
  | DEEPSEEK => Some "https://api.deepseek.com/v1"
  | OLLAMA => Some "http://localhost:11434"
  | LOCAL => None
  end.

Definition default_completion_model (p : AIProvider) (k : completion)
    : string :=
  match k with
  | Chat _ => default_chat_model p
  | Text _ => default_text_model p
  end.

(** A completion request as a call. *)
Definition call_of (k : completion) (model : option string)
    (temperature : option Q) (max_tokens : option Z) (kwargs : dict)
    : call :=
  match k with
  | Chat messages => ChatCall messages model temperature max_tokens kwargs
  | Text prompt => TextCall prompt model temperature max_tokens kwargs
  end.

(** What [requests.post(...)], [raise_for_status()] and [json()] give for
    a request, after the requests of [sent]. *)
Definition http_json (w : World) (sent : list request) (r : request)
    : result value :=
  response <- http_send w sent r ;;
  raise_for_status response ;;;
  response_json response.

(** The request of a completion of [AIClient] through [requests]. *)
Definition completion_request (self : AIClient) (k : completion)
    (model : option string) (temperature : option Q)
    (max_tokens : option Z) (kwargs : dict) : request :=
  let m := model_or model (default_completion_model (provider self) k) in
  HttpPost
    (fstr (ai_client.base_url self) ++ completion_path (provider self) k)
    (ai_client.headers self)
    (VDict
       (if AIProvider_eqb (provider self) OLLAMA
        then ollama_payload (input_key k) (input_value k) m temperature
               max_tokens
        else hosted_payload (input_key k) (input_value k) m temperature
               max_tokens kwargs)).


(** A text answer in the format of OpenAI and DeepSeek. *)
Definition hosted_text_answer (text : string) : value :=
  VDict [("choices",
          VList [VDict [("text", VStr text); ("index", VInt 0);
                        ("finish_reason", VStr "stop")]])].

(** A text answer in the format of Ollama. *)
Definition ollama_text_answer (text : string) : value :=
  VDict [("model", VStr "llama2"); ("response", VStr text);
         ("done", VBool true)].


(** An entry of the list of models from which no name can be read. *)
Definition nameless (entry : value) : Prop :=
  is_raise (getitem_str entry "name") = true.


(** The body of the loop of [OllamaClient] seen on the options alone. *)
Definition nest_extra (reserved : list string) (options : dict)
    (kv : string * value) : dict :=
  if existsb (String.eqb (fst kv)) reserved then options
  else dict_set (fst kv) (snd kv) options.

(** Extras that [OllamaClient] does not look at. *)
Definition ignored_extras : dict :=
  [("stream", VBool true); ("options", VDict [("seed", VInt 1)])].

Definition seed_extra : dict := [("seed", VInt 42)].


(** The defaults of the parameter [model] of
    [DeepSeekClient.chat_completion] and [DeepSeekClient.text_completion]. *)
Definition deepseek_default_model (k : completion) : string :=
  match k with
  | Chat _ => "deepseek-chat"
  | Text _ => "deepseek-coder"
  end.

(** An embedding answer in the format of OpenAI and DeepSeek. *)
Definition hosted_embedding_answer (vector : value) : value :=
  VDict [("object", VStr "list");
         ("data", VList [VDict [("index", VInt 0);
                                ("embedding", vector)]])].

Definition sample_vector : value :=
  VList [VFloat (1 # 10); VFloat (2 # 10); VFloat (3 # 10)].


(** The object the [openai] library returns for a chat completion. *)
Definition sdk_chat_answer (text : string) : value :=
  VObj "ChatCompletion"
    [("id", VStr "chatcmpl-1");
     ("choices",
      VList [VObj "Choice"
               [("index", VInt 0);
                ("message",
                 VObj "ChatCompletionMessage"
                   [("role", VStr "assistant"); ("content", VStr text)]);
                ("finish_reason", VStr "stop")]])].


(** The model a request names: the field ["model"] of a posted payload, or
    the keyword [model] handed to the [openai] library. *)
Definition request_model (r : request) : option value :=
  match r with
  | HttpPost _ _ (VDict payload) => dict_get "model" payload
  | SdkCall _ kwargs => dict_get "model" kwargs
  | _ => None
  end.

(** The model an answer names. *)
Definition answer_model (answer : value) : option value :=
  match answer with
  | VDict d => dict_get "model" d
  | _ => None
  end.

(** The argument [model] of a call, and the default the called method has
    for a provider. *)
Definition call_model (c : call) : option string :=
  match c with
  | ChatCall _ model _ _ _ => model
  | TextCall _ model _ _ _ => model
  | EmbeddingCall _ model => model
  end.

Definition call_default_model (p : AIProvider) (c : call) : string :=
  match c with
  | ChatCall _ _ _ _ _ => default_chat_model p
  | TextCall _ _ _ _ _ => default_text_model p
  | EmbeddingCall _ _ => default_embedding_model p
  end.

(** The effective model of a call: the explicit one, else the default. *)
Definition effective_model (p : AIProvider) (c : call) : string :=
  model_or (call_model c) (call_default_model p c).

(** Chat and text calls, as opposed to embedding calls. *)
Definition is_completion (c : call) : bool :=
  match c with
  | ChatCall _ _ _ _ _ | TextCall _ _ _ _ _ => true
  | EmbeddingCall _ _ => false
  end.

(** Python's calling convention for the extras of a call. *)
Definition call_kwargs_ok (c : call) : bool :=
  match c with
  | ChatCall messages _ _ _ kwargs => kwargs_ok (Chat messages) kwargs
  | TextCall prompt _ _ _ kwargs => kwargs_ok (Text prompt) kwargs
  | EmbeddingCall _ _ => true
  end.


(** * Theorems *)

(** ** Default models *)

Lemma model_or_idem (model : option string) (d : string) :
  model_or (Some (model_or model d)) d = model_or model d.
Proof. reflexivity. Qed.

(** C6, as the specification words it, fails: the Ollama provider has one
    default, ["llama2"], for chat, text and embedding alike. *)
Lemma ollama_defaults_not_distinct : ~ distinct_defaults OLLAMA.
Proof.
  unfold distinct_defaults. intros [Hneq _]. apply Hneq. reflexivity.
Qed.

(** ** Construction *)

Lemma truthy_or_str (a b : option string) :
  truthy_str (or_str a b) = truthy_str a || truthy_str b.
Proof.
  unfold or_str. destruct (truthy_str a) eqn:Ha; simpl; auto.
Qed.

(** A string that is not the value of a member is refused, whatever the
    credentials are. *)
Lemma init_unknown_provider :
  __init__ deepseek_env (ByName "azure") (Some "sk") None true =
  Raise (mk_exn ValueError "'azure' is not a valid AIProvider").
Proof. reflexivity. Qed.

Ltac inv_ok :=
  intros;
  match goal with
  | H : Ok _ = Ok _ |- _ => injection H as <-; reflexivity
  | H : Raise _ = Raise _ |- _ => injection H as <-; reflexivity
  end.

(** C3. For a provider argument that names a member of [AIProvider], the
    constructor raises exactly when the provider is OpenAI or DeepSeek, no
    credential is supplied (neither the argument nor the environment
    variable is a non-empty string) and the fallback is disabled; the error
    is then a [ValueError]. For Ollama and the local provider it never
    raises. *)
Theorem init_fails_iff_credential_missing
    (env : Env) (arg : provider_arg) (p : AIProvider)
    (api_key base_url : option string) (use_local_fallback : bool) :
  resolve_provider arg = Ok p ->
  (is_raise (__init__ env arg api_key base_url use_local_fallback) = true <->
   requires_credential p = true /\
   credential_supplied env p api_key = false /\
   use_local_fallback = false) /\
  (forall e,
     __init__ env arg api_key base_url use_local_fallback = Raise e ->
     exn_cls e = ValueError) /\
  (forall c,
     __init__ env arg api_key base_url use_local_fallback = Ok c ->
     provider c = p /\
     ai_client.use_local_fallback c = use_local_fallback).
Proof.
  intros Hres. unfold __init__. rewrite Hres. simpl.
  unfold credential_supplied.
  destruct p; simpl.
  - rewrite truthy_or_str.
    destruct (truthy_str api_key), (truthy_str (environ env "OPENAI_API_KEY")),
      use_local_fallback; simpl; repeat split;
      try (intros; discriminate); try tauto;
      try inv_ok;
      try (intros [? [? ?]]; discriminate).
  - rewrite truthy_or_str.
    destruct (truthy_str api_key),
      (truthy_str (environ env "DEEPSEEK_API_KEY")),
      use_local_fallback; simpl; repeat split;
      try (intros; discriminate); try tauto;
      try inv_ok;
      try (intros [? [? ?]]; discriminate).
  - repeat split; try (intros; discriminate);
      try (intros [? _]; discriminate);
      try inv_ok.
  - repeat split; try (intros; discriminate);
      try (intros [? _]; discriminate);
      try inv_ok.
Qed.

Lemma init_fails_iff_credential_missing_witness :
  is_raise (__init__ empty_env (ByName "deepseek") (Some "") None false)
    = true /\
  is_raise (__init__ deepseek_env (ByName "deepseek") None None false)
    = false /\
  is_raise (__init__ empty_env (ByEnum OPENAI) None None true) = false /\
  is_raise (__init__ empty_env (ByEnum OLLAMA) None None false) = false.
Proof.
  split; [| split; [| split]].
  - apply (proj1 (init_fails_iff_credential_missing empty_env
                    (ByName "deepseek") DEEPSEEK (Some "") None false
                    eq_refl)).
    split; [reflexivity | split; reflexivity].
  - reflexivity.
  - reflexivity.
  - reflexivity.
Defined.

(** ** Failure of the provider call *)

Lemma random_list_spec {C} (n : nat) (w : World) (st : St C) :
  random_list n w st =
  (Ok (map (fun i => VFloat (rand_tape w i)) (seq (rand_pos st) n)),
   {| self_ := self_ st; trace := trace st;
      rand_pos := (rand_pos st + n)%nat |}).
Proof.
  revert st. induction n as [| n IH]; intros st.
  - simpl. rewrite Nat.add_0_r. destruct st; reflexivity.
  - cbn [random_list bind M_monad]. unfold random_random at 1.
    rewrite IH. cbn. rewrite Nat.add_succ_r. reflexivity.
Qed.

Lemma _local_embedding_spec (text model : string) (w : World)
    (st : St AIClient) :
  _local_embedding text model w st =
  (Ok (VList (map (fun i => VFloat (rand_tape w i))
                (seq (rand_pos st) 1536))),
   {| self_ := self_ st; trace := trace st;
      rand_pos := (rand_pos st + 1536)%nat |}).
Proof.
  unfold _local_embedding. cbn [bind M_monad].
  rewrite random_list_spec. reflexivity.
Qed.

Lemma offline_stub_ok (self : AIClient) (c : call) (w : World)
    (st : St AIClient) :
  is_raise (fst (offline_stub self c w st)) = false.
Proof.
  destruct c; [reflexivity | reflexivity |].
  unfold offline_stub. rewrite _local_embedding_spec. reflexivity.
Qed.

(** What a method does once its provider call has raised. *)
Lemma invoke_after_failure (w : World) (st st' : St AIClient) (c : call)
    (e : exn) :
  provider_call (self_ st) c w st = (Raise e, st') ->
  invoke c w st =
  if falls_back (self_ st)
  then offline_stub (self_ st) c w st'
  else (Raise e, st').
Proof.
  intros Hcall.
  destruct c; unfold invoke, provider_call, offline_stub in *;
    unfold chat_completion, text_completion, create_embedding;
    unfold bind, M_monad, get_self, try_except_Exception;
    cbv beta iota; rewrite Hcall;
    destruct (falls_back (self_ st)); reflexivity.
Qed.

(** C1. When the provider call of an operation raises, the fallback is
    enabled and the provider is not the local one, the operation returns
    what the local stub returns for the same arguments (with the model the
    operation resolved), and raises nothing. *)
Theorem fallback_returns_stub (w : World) (st st' : St AIClient) (c : call)
    (e : exn) :
  use_local_fallback (self_ st) = true ->
  AIProvider_eqb (provider (self_ st)) LOCAL = false ->
  provider_call (self_ st) c w st = (Raise e, st') ->
  invoke c w st = offline_stub (self_ st) c w st' /\
  is_raise (fst (invoke c w st)) = false.
Proof.
  intros Hfb Hp Hcall.
  rewrite (invoke_after_failure w st st' c e Hcall).
  unfold falls_back. rewrite Hfb, Hp. simpl.
  split; [reflexivity | apply offline_stub_ok].
Qed.

Lemma fallback_returns_stub_witness :
  let st := fresh (client_of OPENAI true (Some "https://api.openai.com/v1")) in
  let c := TextCall "poem" None (Some (7 # 10)) None [] in
  exists st',
    invoke c offline_world st = offline_stub (self_ st) c offline_world st' /\
    is_raise (fst (invoke c offline_world st)) = false.
Proof.
  intros st c.
  eexists.
  apply (fallback_returns_stub offline_world st _ c connection_refused).
  - reflexivity.
  - reflexivity.
  - reflexivity.
Defined.

(** C2, as the specification words it, fails: with the fallback disabled the
    exception that reaches the caller is the transport error itself, not an
    exception of another class wrapped around it. *)
Lemma reraised_error_is_not_ProviderCallFailed :
  let st := fresh (client_of DEEPSEEK false
                     (Some "https://api.deepseek.com/v1")) in
  let c := ChatCall hello_messages None (Some (7 # 10)) None [] in
  use_local_fallback (self_ st) = false /\
  fst (provider_call (self_ st) c offline_world st)
    = Raise connection_refused /\
  ~ (exists raised,
       fst (invoke c offline_world st) = Raise raised /\
       is_ProviderCallFailed DEEPSEEK connection_refused raised).
Proof.
  intros st c. split; [reflexivity | split; [reflexivity |]].
  intros (raised & Hraised & Hclass & _).
  vm_compute in Hraised. injection Hraised as <-.
  discriminate Hclass.
Qed.

(** C2 (amended). When the provider call of an operation raises and the
    fallback is disabled, the operation raises that same exception,
    unchanged: nothing is wrapped around it and nothing is added to it. *)
Theorem failure_reraised_without_fallback (w : World) (st st' : St AIClient)
    (c : call) (e : exn) :
  use_local_fallback (self_ st) = false ->
  provider_call (self_ st) c w st = (Raise e, st') ->
  invoke c w st = (Raise e, st').
Proof.
  intros Hfb Hcall.
  rewrite (invoke_after_failure w st st' c e Hcall).
  unfold falls_back. rewrite Hfb. reflexivity.
Qed.

Lemma failure_reraised_without_fallback_witness :
  let st := fresh (client_of OLLAMA false (Some "http://localhost:11434")) in
  exists st',
    invoke (EmbeddingCall "hi" None) offline_world st
    = (Raise connection_refused, st').
Proof.
  intros st. eexists.
  apply (failure_reraised_without_fallback offline_world st _
           (EmbeddingCall "hi" None) connection_refused).
  - reflexivity.
  - reflexivity.
Defined.

(** ** Embeddings *)

Lemma sample_tape_range (n : nat) : (0 <= sample_tape n < 1)%Q.
Proof.
  unfold sample_tape, Qle, Qlt. simpl.
  rewrite Zpos_P_of_succ_nat. lia.
Qed.

(** C7. Whatever the text and the model, the local stub returns a list of
    exactly 1536 floats; each lies in [0, 1) because each is a result of
    [random.random()], whose range is [0, 1). *)
Theorem _local_embedding_shape (w : World) (st : St AIClient)
    (text model : string) :
  (forall n, (0 <= rand_tape w n < 1)%Q) ->
  exists xs,
    fst (_local_embedding text model w st) = Ok (VList (map VFloat xs)) /\
    List.length xs = 1536%nat /\
    Forall (fun x => (0 <= x < 1)%Q) xs.
Proof.
  intros Hrange.
  exists (map (rand_tape w) (seq (rand_pos st) 1536)).
  rewrite _local_embedding_spec. cbn [fst].
  rewrite map_map. split; [reflexivity | split].
  - rewrite length_map, length_seq. reflexivity.
  - apply Forall_forall. intros x Hx.
    apply in_map_iff in Hx. destruct Hx as (n & <- & _). apply Hrange.
Qed.

Lemma _local_embedding_shape_witness :
  exists xs,
    fst (_local_embedding "hello" "local-embedding" offline_world
           (fresh (client_of LOCAL true None)))
    = Ok (VList (map VFloat xs)) /\
    List.length xs = 1536%nat /\
    Forall (fun x => (0 <= x < 1)%Q) xs.
Proof.
  apply (_local_embedding_shape offline_world
           (fresh (client_of LOCAL true None)) "hello" "local-embedding").
  exact sample_tape_range.
Defined.

(** With the local provider [create_embedding] is the stub. *)
Lemma create_embedding_local (w : World) (st : St AIClient) (text : string)
    (model : option string) :
  provider (self_ st) = LOCAL ->
  create_embedding text model w st =
  _local_embedding text (model_or model "local-embedding") w st.
Proof.
  intros Hp. unfold create_embedding, create_embedding_try.
  unfold bind at 1. unfold M_monad, get_self, try_except_Exception.
  cbv beta iota. rewrite Hp. cbn [AIProvider_eqb andb default_embedding_model].
  rewrite _local_embedding_spec. reflexivity.
Qed.

Lemma create_embedding_try_split (self : AIClient) (text model : string)
    (w : World) (st : St AIClient) :
  AIProvider_eqb (provider self) LOCAL = false ->
  create_embedding_try self text model w st =
  (answer <- embedding_fetch self text model ;;
   lift (embedding_extract self answer)) w st.
Proof.
  intros Hp. unfold create_embedding_try, embedding_fetch, embedding_extract.
  destruct (provider self), (client self); try discriminate Hp; reflexivity.
Qed.

(** C5, as the specification words it, fails: an answer of an Ollama server
    without the key ["embedding"] makes [create_embedding] raise the
    [KeyError] when the fallback is disabled; no empty list is returned. *)
Lemma shape_mismatch_reaches_caller :
  let self := client_of OLLAMA false (Some "http://localhost:11434") in
  let w := replying_world (VDict [("error", VStr "model not found")]) in
  embedding_extract self (VDict [("error", VStr "model not found")])
    = Raise (mk_exn KeyError "embedding") /\
  fst (create_embedding "hi" None w (fresh self))
    = Raise (mk_exn KeyError "embedding") /\
  fst (create_embedding "hi" None w (fresh self)) <> Ok (VList []).
Proof.
  intros self w. split; [reflexivity | split; [reflexivity |]].
  discriminate.
Qed.

Lemma stub_vector_not_empty (f : nat -> value) (start : nat) :
  Ok (VList (map f (seq start 1536))) <> Ok (VList []).
Proof.
  intros Heq.
  assert (Hlen : List.length (map f (seq start 1536)) = 0%nat).
  { apply (f_equal (fun r => match r with
                             | Ok (VList l) => List.length l
                             | _ => 0%nat
                             end)) in Heq.
    exact Heq. }
  rewrite length_map, length_seq in Hlen. discriminate Hlen.
Qed.

Lemma create_embedding_after_failure (w : World) (st st' : St AIClient)
    (text : string) (model : option string) (e : exn) :
  create_embedding_try (self_ st) text
    (model_or model (default_embedding_model (provider (self_ st)))) w st
  = (Raise e, st') ->
  create_embedding text model w st =
  if falls_back (self_ st)
  then _local_embedding text
         (model_or model (default_embedding_model (provider (self_ st))))
         w st'
  else (Raise e, st').
Proof.
  intros Hcall. unfold create_embedding.
  unfold bind, M_monad, get_self, try_except_Exception.
  cbv beta iota. rewrite Hcall.
  destruct (falls_back (self_ st)); reflexivity.
Qed.

(** C5 (amended). When the answer of a remote provider does not have the
    expected shape, the exception of the extraction is handled like any
    other failure of the provider call: with the fallback enabled
    [create_embedding] returns the 1536 numbers of the local stub, with the
    fallback disabled it raises that exception to the caller. It returns an
    empty list in neither case. *)
Theorem embedding_shape_mismatch (w : World) (st st' : St AIClient)
    (text : string) (model : option string) (answer : value) (e : exn) :
  AIProvider_eqb (provider (self_ st)) LOCAL = false ->
  embedding_fetch (self_ st) text
    (model_or model (default_embedding_model (provider (self_ st)))) w st
  = (Ok answer, st') ->
  embedding_extract (self_ st) answer = Raise e ->
  create_embedding text model w st =
    (if use_local_fallback (self_ st)
     then _local_embedding text
            (model_or model (default_embedding_model (provider (self_ st))))
            w st'
     else (Raise e, st')) /\
  fst (create_embedding text model w st) <> Ok (VList []).
Proof.
  intros Hp Hfetch Hextract.
  rewrite (create_embedding_after_failure w st st' text model e).
  - unfold falls_back. rewrite Hp, Bool.andb_true_r.
    split; [reflexivity |].
    destruct (use_local_fallback (self_ st)).
    + rewrite _local_embedding_spec. apply stub_vector_not_empty.
    + discriminate.
  - rewrite create_embedding_try_split by exact Hp.
    unfold bind, M_monad. rewrite Hfetch. unfold lift.
    rewrite Hextract. reflexivity.
Qed.

Lemma embedding_shape_mismatch_witness :
  let st := fresh (client_of DEEPSEEK true
                     (Some "https://api.deepseek.com/v1")) in
  let w := replying_world (VDict [("data", VList [])]) in
  let st' :=
    issue (HttpPost "https://api.deepseek.com/v1/embeddings"
             (make_headers None)
             (VDict [("model", VStr "deepseek-embedding");
                     ("input", VStr "hi")])) st in
  create_embedding "hi" None w st =
    (if use_local_fallback (self_ st)
     then _local_embedding "hi"
            (model_or None (default_embedding_model (provider (self_ st))))
            w st'
     else (Raise (mk_exn IndexError "list index out of range"), st')) /\
  fst (create_embedding "hi" None w st) <> Ok (VList []).
Proof.
  intros st w st'.
  exact (embedding_shape_mismatch w st st' "hi" None
           (VDict [("data", VList [])])
           (mk_exn IndexError "list index out of range")
           eq_refl eq_refl eq_refl).
Defined.

(** ** The client object is never written *)

Section Frame.
Context {C : Type}.

Lemma preserves_ret {A} (a : A) : preserves_self (C := C) (ret a).
Proof. intros w st. reflexivity. Qed.

Lemma preserves_raise {A} (e : exn) : preserves_self (@raise C A e).
Proof. intros w st. reflexivity. Qed.

Lemma preserves_lift {A} (r : result A) : preserves_self (@lift C A r).
Proof. intros w st. reflexivity. Qed.

Lemma preserves_get_self : preserves_self (@get_self C).
Proof. intros w st. reflexivity. Qed.

Lemma preserves_bind {A B} (c : M C A) (k : A -> M C B) :
  preserves_self c -> (forall a, preserves_self (k a)) ->
  preserves_self (bind c k).
Proof.
  intros Hc Hk w st. unfold bind, M_monad.
  specialize (Hc w st). destruct (c w st) as [[a | e] st1]; simpl in *.
  - rewrite Hk. exact Hc.
  - exact Hc.
Qed.

Lemma preserves_try {A} (c : M C A) (h : exn -> M C A) :
  preserves_self c -> (forall e, preserves_self (h e)) ->
  preserves_self (try_except_Exception c h).
Proof.
  intros Hc Hh w st. unfold try_except_Exception.
  specialize (Hc w st). destruct (c w st) as [[a | e] st1]; simpl in *.
  - exact Hc.
  - rewrite Hh. exact Hc.
Qed.

Lemma preserves_requests_post (url : string) (headers : dict)
    (json : value) :
  preserves_self (@requests_post C url headers json).
Proof. intros w st. reflexivity. Qed.

Lemma preserves_requests_get (url : string) :
  preserves_self (@requests_get C url).
Proof. intros w st. reflexivity. Qed.

Lemma preserves_sdk_create (method : string) (kwargs : dict) :
  preserves_self (@sdk_create C method kwargs).
Proof. intros w st. reflexivity. Qed.

Lemma preserves_random_random : preserves_self (@random_random C).
Proof. intros w st. reflexivity. Qed.

Lemma preserves_random_list (n : nat) : preserves_self (@random_list C n).
Proof.
  induction n as [| n IH].
  - apply preserves_ret.
  - cbn [random_list]. apply preserves_bind.
    + apply preserves_random_random.
    + intros x. apply preserves_bind; [exact IH |].
      intros xs. apply preserves_ret.
Qed.

Lemma preserves_post_json (url : string) (headers payload : dict) :
  preserves_self (@post_json C url headers payload).
Proof.
  unfold post_json. apply preserves_bind.
  - apply preserves_requests_post.
  - intros response. apply preserves_bind; [apply preserves_lift |].
    intros _. apply preserves_lift.
Qed.
End Frame.

Ltac frame_step :=
  first
    [ simple apply @preserves_ret | simple apply @preserves_raise
    | simple apply @preserves_lift | simple apply @preserves_get_self
    | simple apply @preserves_post_json | simple apply @preserves_sdk_create
    | simple apply @preserves_requests_get
    | simple apply @preserves_random_list
    | simple apply @preserves_bind; [| intro]
    | simple apply @preserves_try; [| intro]
    | match goal with
      | |- preserves_self (if ?b then _ else _) => destruct b
      end ].

Lemma preserves_local_embedding (text model : string) :
  preserves_self (_local_embedding text model).
Proof. unfold _local_embedding. repeat frame_step. Qed.

Lemma preserves_chat_completion messages model temperature max_tokens kwargs :
  preserves_self
    (chat_completion messages model temperature max_tokens kwargs).
Proof.
  unfold chat_completion, chat_completion_try, _local_chat_completion.
  repeat frame_step.
Qed.

Lemma preserves_text_completion prompt model temperature max_tokens kwargs :
  preserves_self
    (text_completion prompt model temperature max_tokens kwargs).
Proof.
  unfold text_completion, text_completion_try, _local_text_completion.
  repeat frame_step.
Qed.

Lemma preserves_create_embedding text model :
  preserves_self (create_embedding text model).
Proof.
  unfold create_embedding, create_embedding_try.
  repeat first [simple apply preserves_local_embedding | frame_step].
Qed.

Lemma preserves_list_ollama_models : preserves_self list_ollama_models.
Proof. unfold list_ollama_models. repeat frame_step. Qed.

(** C9. After [chat_completion], [text_completion], [create_embedding] or
    [list_ollama_models], whatever the arguments and whatever the world
    answers, the client object is the one the call started with: its
    provider, key, URL, headers and fallback flag are unchanged. *)
Theorem operations_preserve_client (w : World) (st : St AIClient) :
  (forall messages model temperature max_tokens kwargs,
     self_ (snd (chat_completion messages model temperature max_tokens
                   kwargs w st)) = self_ st) /\
  (forall prompt model temperature max_tokens kwargs,
     self_ (snd (text_completion prompt model temperature max_tokens
                   kwargs w st)) = self_ st) /\
  (forall text model,
     self_ (snd (create_embedding text model w st)) = self_ st) /\
  self_ (snd (list_ollama_models w st)) = self_ st.
Proof.
  split; [| split; [| split]]; intros.
  - apply preserves_chat_completion.
  - apply preserves_text_completion.
  - apply preserves_create_embedding.
  - apply preserves_list_ollama_models.
Qed.

(** ** Listing the models *)

(** C10. With a provider other than Ollama [list_ollama_models] returns the
    empty list and leaves the state as it was: no request is issued. With
    Ollama it issues one GET and always returns a list; the list is empty
    when the request raises, when the status is an error, when the body is
    not JSON and when the names cannot be read from the body; otherwise it
    is the list of names. [OllamaClient.list_models] never raises
    either. *)
Theorem list_ollama_models_never_raises (w : World) (st : St AIClient)
    (st2 : St ollama_client.OllamaClient) :
  (AIProvider_eqb (provider (self_ st)) OLLAMA = false ->
   list_ollama_models w st = (Ok [], st)) /\
  (AIProvider_eqb (provider (self_ st)) OLLAMA = true ->
   let r := HttpGet (fstr (base_url (self_ st)) ++ "/api/tags") in
   exists names,
     list_ollama_models w st = (Ok names, issue r st) /\
     (is_raise (http_send w (trace st) r) = true -> names = []) /\
     (forall resp,
        http_send w (trace st) r = Ok resp ->
        is_raise (raise_for_status resp) = true \/
        is_raise (response_json resp) = true \/
        (forall body, json_body resp = Some body ->
                      is_raise (model_names body) = true) ->
        names = []) /\
     (forall resp body l,
        http_send w (trace st) r = Ok resp ->
        raise_for_status resp = Ok tt ->
        json_body resp = Some body ->
        model_names body = Ok l ->
        names = l)) /\
  (exists names,
     ollama_client.list_models w st2 =
     (Ok names,
      issue (HttpGet (ollama_client.base_url (self_ st2) ++ "/api/tags"))
        st2)).
Proof.
  split; [| split].
  - intros Hp. unfold list_ollama_models.
    unfold bind, M_monad, get_self. cbv beta iota.
    rewrite Hp. reflexivity.
  - intros Hp r. unfold list_ollama_models.
    unfold bind, M_monad, get_self, try_except_Exception, requests_get, lift.
    cbv beta iota. rewrite Hp. cbn [negb]. fold r.
    destruct (http_send w (trace st) r) as [resp | e] eqn:Hsend.
    + destruct (raise_for_status resp) as [[] | e1] eqn:Hstatus.
      * unfold response_json.
        destruct (json_body resp) as [body |] eqn:Hbody.
        -- destruct (model_names body) as [l | e3] eqn:Hnames.
           ++ exists l. split; [reflexivity |].
              split; [discriminate |]. split.
              ** intros resp' [= <-] [H | [H | H]].
                 --- rewrite Hstatus in H. discriminate H.
                 --- unfold response_json in H. rewrite Hbody in H.
                     discriminate H.
                 --- specialize (H body Hbody). rewrite Hnames in H.
                     discriminate H.
              ** intros resp' body' l' [= <-] _ Hb Hn.
                 rewrite Hbody in Hb. injection Hb as <-.
                 rewrite Hnames in Hn. injection Hn as <-. reflexivity.
           ++ exists []. split; [reflexivity |].
              split; [reflexivity |]. split; [reflexivity |].
              intros resp' body' l' [= <-] _ Hb Hn.
              rewrite Hbody in Hb. injection Hb as <-.
              rewrite Hnames in Hn. discriminate Hn.
        -- exists []. split; [reflexivity |].
           split; [reflexivity |]. split; [reflexivity |].
           intros resp' body' l' [= <-] _ Hb _.
           rewrite Hbody in Hb. discriminate Hb.
      * exists []. split; [reflexivity |].
        split; [reflexivity |]. split; [reflexivity |].
        intros resp' body' l' [= <-] Hs _ _.
        rewrite Hstatus in Hs. discriminate Hs.
    + exists []. split; [reflexivity |].
      split; [reflexivity |]. split; [reflexivity |].
      intros resp' body' l' Hs. discriminate Hs.
  - unfold ollama_client.list_models.
    unfold bind, M_monad, get_self, try_except_Exception, requests_get, lift.
    cbv beta iota.
    destruct (http_send w (trace st2) _) as [resp | e].
    + destruct (raise_for_status resp) as [[] | e1].
      * destruct (response_json resp) as [body | e2].
        -- destruct (model_names body) as [l | e3]; eexists; reflexivity.
        -- eexists; reflexivity.
      * eexists; reflexivity.
    + eexists; reflexivity.
Qed.

Lemma list_ollama_models_never_raises_witness :
  list_ollama_models offline_world (fresh (client_of LOCAL true None))
    = (Ok [], fresh (client_of LOCAL true None)) /\
  exists names,
    fst (list_ollama_models (replying_world tags_body)
           (fresh (client_of OLLAMA true (Some "http://localhost:11434"))))
      = Ok names /\
    names = [VStr "llama2:latest"; VStr "mistral:7b"].
Proof.
  split.
  - apply (proj1 (list_ollama_models_never_raises offline_world
                    (fresh (client_of LOCAL true None))
                    (fresh ollama_fixture))).
    reflexivity.
  - destruct (proj1 (proj2 (list_ollama_models_never_raises
                              (replying_world tags_body)
                              (fresh (client_of OLLAMA true
                                        (Some "http://localhost:11434")))
                              (fresh ollama_fixture)))
                eq_refl)
      as (names & Hrun & _ & _ & Hnames).
    exists names. split.
    + rewrite Hrun. reflexivity.
    + apply (Hnames {| status_code := 200; json_body := Some tags_body |}
               tags_body); reflexivity.
Defined.

(** ** Dictionaries *)

Lemma dict_get_set_eq (k : string) (v : value) (d : dict) :
  dict_get k (dict_set k v d) = Some v.
Proof.
  induction d as [| [k' v'] d IH]; simpl.
  - rewrite String.eqb_refl. reflexivity.
  - destruct (String.eqb k k') eqn:Hk; simpl; rewrite Hk; auto.
Qed.

Lemma dict_get_set_neq (k k' : string) (v : value) (d : dict) :
  String.eqb k k' = false ->
  dict_get k (dict_set k' v d) = dict_get k d.
Proof.
  intros Hneq. induction d as [| [k0 v0] d IH]; simpl.
  - rewrite Hneq. reflexivity.
  - destruct (String.eqb k' k0) eqn:Hk0; simpl.
    + apply String.eqb_eq in Hk0. subst k0. rewrite Hneq. reflexivity.
    + rewrite IH. reflexivity.
Qed.

Lemma dict_mem_cons (k k' : string) (v : value) (d : dict) :
  dict_mem k ((k', v) :: d) = String.eqb k k' || dict_mem k d.
Proof.
  unfold dict_mem. simpl. destruct (String.eqb k k'); reflexivity.
Qed.

Lemma dict_get_update (k : string) (d extra : dict) :
  dict_mem k extra = false ->
  dict_get k (dict_update d extra) = dict_get k d.
Proof.
  revert d. induction extra as [| [k' v'] extra IH]; intros d Hmem.
  - reflexivity.
  - rewrite dict_mem_cons in Hmem. apply Bool.orb_false_iff in Hmem.
    destruct Hmem as [Hneq Hmem].
    unfold dict_update in *. simpl. rewrite IH by exact Hmem.
    apply dict_get_set_neq. exact Hneq.
Qed.

Lemma dict_mem_set (k k' : string) (v : value) (d : dict) :
  dict_mem k d = true -> dict_mem k (dict_set k' v d) = true.
Proof.
  unfold dict_mem. intros Hmem.
  destruct (String.eqb k k') eqn:Hk.
  - apply String.eqb_eq in Hk. subst k'. rewrite dict_get_set_eq.
    reflexivity.
  - rewrite dict_get_set_neq by exact Hk. exact Hmem.
Qed.

(** ** Payloads *)

Lemma kwargs_ok_spec (k : completion) (kwargs : dict) :
  kwargs_ok k kwargs = true ->
  dict_mem "temperature" kwargs = false /\
  dict_mem "max_tokens" kwargs = false.
Proof.
  unfold kwargs_ok. cbn [forallb]. intros Hok.
  repeat (apply Bool.andb_true_iff in Hok; destruct Hok as [? Hok]).
  split; apply Bool.negb_true_iff; assumption.
Qed.

Lemma hosted_payload_controls (k : completion) (model : string)
    (temperature : option Q) (max_tokens : option Z) (kwargs : dict) :
  kwargs_ok k kwargs = true ->
  top_level_controls
    (hosted_payload (input_key k) (input_value k) model temperature
       max_tokens kwargs)
    temperature max_tokens.
Proof.
  intros Hok. apply kwargs_ok_spec in Hok. destruct Hok as [Ht Hm].
  unfold top_level_controls, hosted_payload.
  destruct max_tokens as [n |]; cbn [option_map].
  - rewrite dict_get_set_neq by reflexivity.
    rewrite dict_get_set_eq, dict_get_update by exact Ht.
    destruct k; split; reflexivity.
  - rewrite !dict_get_update by assumption.
    destruct k; split; reflexivity.
Qed.

Lemma ollama_payload_controls (k : completion) (model : string)
    (temperature : option Q) (max_tokens : option Z) :
  nested_controls
    (ollama_payload (input_key k) (input_value k) model temperature
       max_tokens)
    temperature max_tokens.
Proof.
  unfold nested_controls, not_streaming_no_top_level.
  destruct k, temperature, max_tokens; repeat split; reflexivity.
Qed.

(** *** The loop of [OllamaClient] over the extra arguments *)

Section Extras.
Variable reserved : list string.

Lemma add_extra_other (k : string) (payload : dict) (kv : string * value) :
  String.eqb k "options" = false ->
  dict_get k (ollama_client.add_extra reserved payload kv)
  = dict_get k payload.
Proof.
  intros Hk. destruct kv as [key v]. unfold ollama_client.add_extra.
  destruct (existsb (String.eqb key) reserved); [reflexivity |].
  destruct (dict_mem "options" payload).
  - destruct (dict_get "options" payload) as [[] |]; try reflexivity.
    apply dict_get_set_neq. exact Hk.
  - rewrite dict_get_set_eq. rewrite !dict_get_set_neq by exact Hk.
    reflexivity.
Qed.

Lemma add_extra_options (payload : dict) (key : string) (v : value) :
  options_is_dict payload ->
  options_is_dict (ollama_client.add_extra reserved payload (key, v)) /\
  payload_options (ollama_client.add_extra reserved payload (key, v))
  = if existsb (String.eqb key) reserved
    then payload_options payload
    else dict_set key v (payload_options payload).
Proof.
  intros Hwf. unfold ollama_client.add_extra.
  destruct (existsb (String.eqb key) reserved); [split; auto |].
  unfold options_is_dict, payload_options, dict_mem in *.
  destruct (dict_get "options" payload) as [[] |] eqn:Hopt;
    try contradiction.
  - rewrite Hopt. rewrite dict_get_set_eq. split; auto.
  - rewrite !dict_get_set_eq. split; auto.
Qed.

Lemma fold_extras_other (k : string) (kwargs payload : dict) :
  String.eqb k "options" = false ->
  dict_get k (fold_left (ollama_client.add_extra reserved) kwargs payload)
  = dict_get k payload.
Proof.
  intros Hk. revert payload.
  induction kwargs as [| kv kwargs IH]; intros payload; cbn [fold_left].
  - reflexivity.
  - rewrite IH. apply add_extra_other. exact Hk.
Qed.

Lemma fold_extras_options (k : string) (kwargs payload : dict) :
  options_is_dict payload ->
  dict_mem k kwargs = false ->
  dict_get k
    (payload_options
       (fold_left (ollama_client.add_extra reserved) kwargs payload))
  = dict_get k (payload_options payload).
Proof.
  revert payload.
  induction kwargs as [| [key v] kwargs IH]; intros payload Hwf Hmem; cbn [fold_left].
  - reflexivity.
  - rewrite dict_mem_cons in Hmem. apply Bool.orb_false_iff in Hmem.
    destruct Hmem as [Hneq Hmem].
    destruct (add_extra_options payload key v Hwf) as [Hwf' Hopts].
    rewrite IH by assumption. rewrite Hopts.
    destruct (existsb (String.eqb key) reserved); [reflexivity |].
    apply dict_get_set_neq. exact Hneq.
Qed.

Lemma fold_extras_keeps (k : string) (kwargs payload : dict) :
  options_is_dict payload ->
  dict_mem k (payload_options payload) = true ->
  dict_mem k
    (payload_options
       (fold_left (ollama_client.add_extra reserved) kwargs payload))
  = true.
Proof.
  revert payload.
  induction kwargs as [| [key v] kwargs IH]; intros payload Hwf Hmem; cbn [fold_left].
  - exact Hmem.
  - destruct (add_extra_options payload key v Hwf) as [Hwf' Hopts].
    apply IH; [exact Hwf' |]. rewrite Hopts.
    destruct (existsb (String.eqb key) reserved); [exact Hmem |].
    apply dict_mem_set. exact Hmem.
Qed.
End Extras.

(** The payload of [OllamaClient] before the extra arguments are added. *)
Lemma build_payload_unfold (key : string) (input : value) (model : string)
    (temperature : option Q) (max_tokens : option Z) (kwargs : dict) :
  ollama_client.build_payload key input model temperature max_tokens kwargs
  = fold_left
      (ollama_client.add_extra ["model"; key; "stream"; "options"])
      kwargs
      (ollama_client.build_payload key input model temperature max_tokens
         []).
Proof. reflexivity. Qed.

Lemma build_payload_controls (k : completion) (model : string)
    (temperature : option Q) (max_tokens : option Z) (kwargs : dict) :
  kwargs_ok k kwargs = true ->
  let payload :=
    ollama_client.build_payload (input_key k) (input_value k) model
      temperature max_tokens kwargs in
  not_streaming_no_top_level payload /\
  dict_get "temperature" (payload_options payload)
    = option_map VFloat temperature /\
  (dict_mem "num_predict" kwargs = false ->
   dict_get "num_predict" (payload_options payload)
     = option_map VInt max_tokens) /\
  (max_tokens <> None ->
   dict_mem "num_predict" (payload_options payload) = true).
Proof.
  intros Hok payload. apply kwargs_ok_spec in Hok. destruct Hok as [Ht _].
  subst payload. rewrite build_payload_unfold.
  set (base := ollama_client.build_payload (input_key k) (input_value k)
                 model temperature max_tokens []).
  assert (Hwf : options_is_dict base).
  { subst base. destruct k, temperature, max_tokens; exact I. }
  unfold not_streaming_no_top_level.
  rewrite !fold_extras_other by reflexivity.
  rewrite fold_extras_options by assumption.
  split; [| split; [| split]].
  - subst base. destruct k, temperature, max_tokens; repeat split;
      reflexivity.
  - subst base. destruct k, temperature, max_tokens; reflexivity.
  - intros Hn. rewrite fold_extras_options by assumption.
    subst base. destruct k, temperature, max_tokens; reflexivity.
  - intros Hsome. apply fold_extras_keeps; [exact Hwf |].
    subst base. destruct k, temperature, max_tokens; try reflexivity;
      contradiction Hsome; reflexivity.
Qed.

(** *** The request a completion sends *)

Lemma post_json_state {C} (url : string) (headers payload : dict)
    (w : World) (st : St C) :
  snd (post_json url headers payload w st)
  = issue (HttpPost url headers (VDict payload)) st.
Proof.
  unfold post_json, bind, M_monad, requests_post, lift. cbv beta iota.
  destruct (http_send w (trace st) _) as [resp | e]; [| reflexivity].
  destruct (raise_for_status resp) as [[] | e1]; [| reflexivity].
  destruct (response_json resp); reflexivity.
Qed.

Lemma try_state {C A} (c : M C A) (h : exn -> M C A) (w : World)
    (st : St C) :
  (forall e st1, snd (h e w st1) = st1) ->
  snd (try_except_Exception c h w st) = snd (c w st).
Proof.
  intros Hh. unfold try_except_Exception.
  destruct (c w st) as [[a | e] st1]; [reflexivity |].
  rewrite Hh. reflexivity.
Qed.

Lemma complete_state_hosted (w : World) (st : St AIClient) (k : completion)
    (model : option string) (temperature : option Q) (max_tokens : option Z)
    (kwargs : dict) :
  provider (self_ st) = DEEPSEEK \/
  (provider (self_ st) = OPENAI /\ client (self_ st) = None) ->
  exists url m,
    snd (complete k model temperature max_tokens kwargs w st)
    = issue (HttpPost url (headers (self_ st))
               (VDict (hosted_payload (input_key k) (input_value k) m
                         temperature max_tokens kwargs))) st.
Proof.
  intros Hpath.
  destruct k; unfold complete, chat_completion, text_completion;
    unfold bind, M_monad, get_self; cbv beta iota zeta;
    (rewrite try_state;
     [| intros e st1; destruct (falls_back (self_ st)); reflexivity]);
    unfold chat_completion_try, text_completion_try;
    destruct Hpath as [Hp | [Hp Hc]];
    rewrite ?Hp, ?Hc; cbn [AIProvider_eqb andb is_some];
    rewrite post_json_state; eexists; eexists; reflexivity.
Qed.

Lemma complete_state_ollama (w : World) (st : St AIClient) (k : completion)
    (model : option string) (temperature : option Q) (max_tokens : option Z)
    (kwargs : dict) :
  provider (self_ st) = OLLAMA ->
  exists url m,
    snd (complete k model temperature max_tokens kwargs w st)
    = issue (HttpPost url (headers (self_ st))
               (VDict (ollama_payload (input_key k) (input_value k) m
                         temperature max_tokens))) st.
Proof.
  intros Hp.
  destruct k; unfold complete, chat_completion, text_completion;
    unfold bind, M_monad, get_self; cbv beta iota zeta;
    (rewrite try_state;
     [| intros e st1; destruct (falls_back (self_ st)); reflexivity]);
    unfold chat_completion_try, text_completion_try;
    rewrite Hp; cbn [AIProvider_eqb andb is_some];
    rewrite post_json_state; eexists; eexists; reflexivity.
Qed.

Lemma ollama_complete_state (w : World)
    (st : St ollama_client.OllamaClient) (k : completion) (model : string)
    (temperature : option Q) (max_tokens : option Z) (kwargs : dict) :
  exists url,
    snd (ollama_complete k model temperature max_tokens kwargs w st)
    = issue (HttpPost url (ollama_client.headers (self_ st))
               (VDict (ollama_client.build_payload (input_key k)
                         (input_value k) model temperature max_tokens
                         kwargs))) st.
Proof.
  destruct k; unfold ollama_complete, ollama_client.chat_completion,
    ollama_client.text_completion;
    unfold bind, M_monad, get_self; cbv beta iota zeta;
    (rewrite try_state; [| intros e st1; reflexivity]);
    rewrite post_json_state; eexists; reflexivity.
Qed.

(** C8. A chat or text request that [AIClient] posts to OpenAI (through
    [requests]) or to DeepSeek has [temperature] and [max_tokens] as
    top-level fields of the payload, [max_tokens] being absent when it was
    not given. The request posted to Ollama, by [AIClient] and by
    [OllamaClient], has ["stream"] set to false and no such top-level field:
    the temperature is under ["options"] and so is [max_tokens], under the
    name ["num_predict"]. ([OllamaClient] also puts the extra keyword
    arguments under ["options"]; an extra named ["num_predict"] would take
    the place of [max_tokens] there.) *)
Theorem completion_payload_shapes (w : World) (st : St AIClient)
    (st2 : St ollama_client.OllamaClient) (k : completion)
    (model : option string) (model2 : string) (temperature : option Q)
    (max_tokens : option Z) (kwargs : dict) :
  kwargs_ok k kwargs = true ->
  (provider (self_ st) = DEEPSEEK \/
   (provider (self_ st) = OPENAI /\ client (self_ st) = None) ->
   exists payload,
     posts (complete k model temperature max_tokens kwargs) w st payload /\
     top_level_controls payload temperature max_tokens) /\
  (provider (self_ st) = OLLAMA ->
   exists payload,
     posts (complete k model temperature max_tokens kwargs) w st payload /\
     nested_controls payload temperature max_tokens) /\
  (exists payload,
     posts (ollama_complete k model2 temperature max_tokens kwargs) w st2
       payload /\
     not_streaming_no_top_level payload /\
     dict_get "temperature" (payload_options payload)
       = option_map VFloat temperature /\
     (dict_mem "num_predict" kwargs = false ->
      dict_get "num_predict" (payload_options payload)
        = option_map VInt max_tokens) /\
     (max_tokens <> None ->
      dict_mem "num_predict" (payload_options payload) = true)).
Proof.
  intros Hok. split; [| split].
  - intros Hpath.
    destruct (complete_state_hosted w st k model temperature max_tokens
                kwargs Hpath) as (url & m & Hst).
    eexists. split.
    + exists url, (headers (self_ st)). rewrite Hst. reflexivity.
    + apply hosted_payload_controls. exact Hok.
  - intros Hp.
    destruct (complete_state_ollama w st k model temperature max_tokens
                kwargs Hp) as (url & m & Hst).
    eexists. split.
    + exists url, (headers (self_ st)). rewrite Hst. reflexivity.
    + apply ollama_payload_controls.
  - destruct (ollama_complete_state w st2 k model2 temperature max_tokens
                kwargs) as (url & Hst).
    eexists. split.
    + exists url, (ollama_client.headers (self_ st2)). rewrite Hst.
      reflexivity.
    + apply build_payload_controls. exact Hok.
Qed.

Lemma completion_payload_shapes_witness :
  exists payload,
    posts (complete (Chat hello_messages) None (Some (7 # 10)) (Some 256)
             top_p_extra)
      offline_world (fresh deepseek_fixture) payload /\
    top_level_controls payload (Some (7 # 10)) (Some 256).
Proof.
  apply (proj1 (completion_payload_shapes offline_world
                  (fresh deepseek_fixture) (fresh ollama_fixture)
                  (Chat hello_messages) None "llama2" (Some (7 # 10))
                  (Some 256) top_p_extra eq_refl)).
  left. reflexivity.
Defined.

(** An extra argument [num_predict] given to [OllamaClient] replaces the
    value that [max_tokens] had put under ["options"]. *)
Lemma build_payload_extra_num_predict :
  dict_get "num_predict"
    (payload_options
       (ollama_client.build_payload "messages" hello_messages "llama2"
          None (Some 5) [("num_predict", VInt 10)]))
  = Some (VInt 10).
Proof. reflexivity. Qed.

(** ** Extraction of the text *)

(** A dict answer without the top-level key the provider is read through
    gives the empty string. *)
Lemma get_completion_text_no_top_level_key (self : AIClient) (d : dict) :
  dict_mem "choices" d = false ->
  (provider self = OLLAMA -> dict_mem "message" d = false) ->
  get_completion_text self (VDict d) = Ok (VStr "").
Proof.
  intros Hc Hm. unfold get_completion_text.
  destruct (provider self) eqn:Hp; cbn; rewrite ?Hm, ?Hc by reflexivity;
    reflexivity.
Qed.

Lemma get_text_completion_no_top_level_key (self : AIClient) (d : dict) :
  dict_mem "choices" d = false ->
  (provider self = OLLAMA -> dict_mem "response" d = false) ->
  get_text_completion self (VDict d) = Ok (VStr "").
Proof.
  intros Hc Hm. unfold get_text_completion.
  destruct (provider self) eqn:Hp; cbn; rewrite ?Hm, ?Hc by reflexivity;
    reflexivity.
Qed.

(** An answer with the keys of the path but an empty list of choices, or a
    choice without the last key, gives the empty string as well. *)
Lemma get_completion_text_missing_key_examples :
  get_completion_text deepseek_fixture (VDict [("choices", VList [])])
    = Ok (VStr "") /\
  get_completion_text deepseek_fixture
    (VDict [("choices", VList [VDict [("message", VDict [])]])])
    = Ok (VStr "") /\
  get_completion_text ollama_aiclient (VDict [("message", VDict [])])
    = Ok (VStr "") /\
  get_text_completion deepseek_fixture
    (VDict [("choices", VList [VDict [("index", VInt 0)]])])
    = Ok (VStr "").
Proof. repeat split. Qed.

(** C4 fails on the code. A dict answer in which the text key is missing
    because a value on the way to it is not a container ([None], a string)
    makes the subscript raise a [TypeError]; [except (KeyError, IndexError,
    AttributeError)] does not catch it and it reaches the caller. *)
Theorem extraction_raises_TypeError :
  get_completion_text deepseek_fixture choice_without_message
    = Raise (mk_exn TypeError "object is not subscriptable") /\
  get_completion_text ollama_aiclient message_as_string
    = Raise (mk_exn TypeError "string indices must be integers") /\
  get_text_completion deepseek_fixture choices_as_strings
    = Raise (mk_exn TypeError "string indices must be integers") /\
  get_text_completion ollama_aiclient (VDict [("choices", VNone)])
    = Raise (mk_exn TypeError "object is not subscriptable").
Proof. repeat split. Qed.

Lemma getitem_str_errors (v : value) (k : string) :
  raises_lookup_errors (getitem_str v k).
Proof.
  intros e H. unfold lookup_error.
  destruct v; cbn in H; try (injection H as <-; cbn; tauto).
  destruct (dict_get k d); [discriminate H |].
  injection H as <-. cbn. tauto.
Qed.

Lemma getitem_0_errors (v : value) : raises_lookup_errors (getitem_0 v).
Proof.
  intros e H. unfold lookup_error.
  destruct v as [| | | | s | l | |]; cbn in H;
    try (injection H as <-; cbn; tauto).
  - destruct s; [| discriminate H]. injection H as <-. cbn. tauto.
  - destruct l; [| discriminate H]. injection H as <-. cbn. tauto.
Qed.

Lemma bind_errors {A B} (c : result A) (k : A -> result B) :
  raises_lookup_errors c ->
  (forall a, raises_lookup_errors (k a)) ->
  raises_lookup_errors (bind c k).
Proof.
  intros Hc Hk e H. destruct c as [a | e']; cbn in H.
  - exact (Hk a e H).
  - apply Hc. injection H as <-. reflexivity.
Qed.

Lemma ok_errors {A} (a : A) : raises_lookup_errors (Ok a).
Proof. intros e H. discriminate H. Qed.

(** What gets through [except (KeyError, IndexError, AttributeError)] when
    the block raises lookup errors only. *)
Lemma try_except_lets_TypeError_through (c : result value) (e : exn) :
  raises_lookup_errors c ->
  try_except c [KeyError; IndexError; AttributeError]
    (fun _ => Ok (VStr "")) = Raise e ->
  exn_cls e = TypeError.
Proof.
  intros Hc H. unfold try_except in H.
  destruct c as [a | e']; [discriminate H |].
  destruct (Hc e' eq_refl) as [Hk | [Hi | Ht]];
    unfold caught_by in H; rewrite ?Hk, ?Hi, ?Ht in H; cbn in H;
    try discriminate H.
  injection H as <-. exact Ht.
Qed.

(** On a dict answer the two extractors raise nothing but a [TypeError]:
    the three classes of the [except] clause are all caught. *)
Lemma get_completion_text_raises_only_TypeError (self : AIClient)
    (d : dict) (e : exn) :
  get_completion_text self (VDict d) = Raise e -> exn_cls e = TypeError.
Proof.
  unfold get_completion_text. apply try_except_lets_TypeError_through.
  cbn [hasattr]. rewrite Bool.andb_false_r.
  cbn [isinstance_dict py_in].
  destruct (AIProvider_eqb (provider self) OLLAMA); cbn [bind result_monad].
  - destruct (dict_mem "message" d).
    + apply bind_errors; [apply getitem_str_errors |].
      intros a. apply getitem_str_errors.
    + destruct (dict_mem "choices" d); [| apply ok_errors].
      repeat first [ apply getitem_str_errors
                   | apply bind_errors;
                     [first [apply getitem_str_errors
                            | apply getitem_0_errors] | intro] ].
  - destruct (dict_mem "choices" d); [| apply ok_errors].
    repeat first [ apply getitem_str_errors
                 | apply bind_errors;
                   [first [apply getitem_str_errors
                          | apply getitem_0_errors] | intro] ].
Qed.

Lemma get_text_completion_raises_only_TypeError (self : AIClient)
    (d : dict) (e : exn) :
  get_text_completion self (VDict d) = Raise e -> exn_cls e = TypeError.
Proof.
  unfold get_text_completion. apply try_except_lets_TypeError_through.
  cbn [hasattr]. rewrite Bool.andb_false_r.
  cbn [isinstance_dict py_in].
  destruct (AIProvider_eqb (provider self) OLLAMA); cbn [bind result_monad].
  - destruct (dict_mem "response" d).
    + apply getitem_str_errors.
    + destruct (dict_mem "choices" d); [| apply ok_errors].
      repeat first [ apply getitem_str_errors
                   | apply bind_errors;
                     [first [apply getitem_str_errors
                            | apply getitem_0_errors] | intro] ].
  - destruct (dict_mem "choices" d); [| apply ok_errors].
    repeat first [ apply getitem_str_errors
                 | apply bind_errors;
                   [first [apply getitem_str_errors
                          | apply getitem_0_errors] | intro] ].
Qed.

(** ** From the transport to the provider call *)

(** When every request fails with [e], the provider call of a remote
    provider raises [e]. *)
Lemma provider_call_raises_with_transport (w : World) (st : St AIClient)
    (c : call) (e : exn) :
  AIProvider_eqb (provider (self_ st)) LOCAL = false ->
  (forall r, http_send w (trace st) r = Raise e) ->
  (forall r, sdk_call w (trace st) r = Raise e) ->
  fst (provider_call (self_ st) c w st) = Raise e.
Proof.
  intros Hp Hhttp Hsdk.
  destruct c; unfold provider_call, chat_completion_try,
    text_completion_try, create_embedding_try;
    destruct (provider (self_ st)); try discriminate Hp;
    destruct (client (self_ st)); cbn [AIProvider_eqb andb is_some];
    unfold post_json, sdk_create, requests_post, bind, M_monad;
    rewrite ?Hhttp, ?Hsdk; reflexivity.
Qed.

(** * Further properties of the clients *)

(** ** Requests and answers of [AIClient] *)

Lemma uses_requests_cases (self : AIClient) :
  uses_requests self = true ->
  provider self = DEEPSEEK \/
  (provider self = OPENAI /\ client self = None) \/
  provider self = OLLAMA.
Proof.
  unfold uses_requests. destruct (provider self); try discriminate; auto.
  destruct (client self); [discriminate | auto].
Qed.

(** X1. When the server answers a chat or text request with a status that
    is not an error and a JSON body, the method returns that body as it is,
    whether or not the fallback is enabled. *)
Theorem completion_returns_body (w : World) (st : St AIClient)
    (k : completion) (model : option string) (temperature : option Q)
    (max_tokens : option Z) (kwargs : dict) (resp : http_response)
    (body : value) :
  uses_requests (self_ st) = true ->
  (forall r, http_send w (trace st) r = Ok resp) ->
  raise_for_status resp = Ok tt ->
  json_body resp = Some body ->
  fst (complete k model temperature max_tokens kwargs w st) = Ok body.
Proof.
  intros Hpath Hsend Hstatus Hbody.
  apply uses_requests_cases in Hpath.
  destruct k; unfold complete, chat_completion, text_completion;
    unfold bind at 1; unfold M_monad, get_self, try_except_Exception;
    cbv beta iota zeta;
    unfold chat_completion_try, text_completion_try;
    destruct Hpath as [Hp | [[Hp Hc] | Hp]];
    rewrite ?Hp, ?Hc; cbn [AIProvider_eqb andb is_some];
    unfold post_json, requests_post, lift, bind, M_monad, response_json;
    rewrite Hsend, Hstatus, Hbody; reflexivity.
Qed.

Lemma completion_returns_body_witness :
  fst (complete (Chat hello_messages) None (Some (7 # 10)) None []
         (replying_world (hosted_chat_answer "hello"))
         (fresh deepseek_fixture))
  = Ok (hosted_chat_answer "hello").
Proof.
  apply (completion_returns_body
           (replying_world (hosted_chat_answer "hello"))
           (fresh deepseek_fixture) (Chat hello_messages) None
           (Some (7 # 10)) None []
           (ok_response (hosted_chat_answer "hello"))
           (hosted_chat_answer "hello")).
  - reflexivity.
  - intros r. reflexivity.
  - reflexivity.
  - reflexivity.
Defined.

Lemma offline_stub_trace (self : AIClient) (c : call) (w : World)
    (st : St AIClient) :
  trace (snd (offline_stub self c w st)) = trace st.
Proof.
  destruct c; unfold offline_stub; [reflexivity | reflexivity |].
  rewrite _local_embedding_spec. reflexivity.
Qed.

(** X2. With the local provider none of the four methods issues a request:
    the three operations are the local stub and [list_ollama_models] is
    empty, whatever the world would answer. *)
Theorem local_provider_never_calls_out (w : World) (st : St AIClient)
    (c : call) :
  provider (self_ st) = LOCAL ->
  invoke c w st = offline_stub (self_ st) c w st /\
  trace (snd (invoke c w st)) = trace st /\
  list_ollama_models w st = (Ok [], st).
Proof.
  intros Hp.
  assert (Hinv : invoke c w st = offline_stub (self_ st) c w st).
  { destruct c; unfold invoke, offline_stub.
    - unfold chat_completion, chat_completion_try.
      unfold bind, M_monad, get_self, try_except_Exception.
      cbv beta iota zeta. rewrite Hp. reflexivity.
    - unfold text_completion, text_completion_try.
      unfold bind, M_monad, get_self, try_except_Exception.
      cbv beta iota zeta. rewrite Hp. reflexivity.
    - rewrite create_embedding_local by exact Hp. rewrite Hp.
      cbn [default_embedding_model]. reflexivity. }
  split; [exact Hinv | split].
  - rewrite Hinv. apply offline_stub_trace.
  - unfold list_ollama_models, bind, M_monad, get_self.
    cbv beta iota. rewrite Hp. reflexivity.
Qed.

Lemma local_provider_never_calls_out_witness :
  trace (snd (invoke (EmbeddingCall "hi" None) offline_world
                (fresh (client_of LOCAL false None))))
  = [].
Proof.
  apply (local_provider_never_calls_out offline_world
           (fresh (client_of LOCAL false None)) (EmbeddingCall "hi" None)).
  reflexivity.
Defined.

Lemma try_trace {C A} (c : M C A) (h : exn -> M C A) (w : World)
    (st : St C) :
  (forall e st1, trace (snd (h e w st1)) = trace st1) ->
  trace (snd (try_except_Exception c h w st)) = trace (snd (c w st)).
Proof.
  intros Hh. unfold try_except_Exception.
  destruct (c w st) as [[a | e] st1]; [reflexivity |].
  rewrite Hh. reflexivity.
Qed.

Lemma bind_lift_state {C A B} (c : M C A) (f : A -> result B) (w : World)
    (st : St C) :
  snd ((a <- c ;; lift (f a)) w st) = snd (c w st).
Proof.
  unfold bind, M_monad, lift.
  destruct (c w st) as [[a | e] st1]; reflexivity.
Qed.

Lemma sdk_create_state {C} (method : string) (kwargs : dict) (w : World)
    (st : St C) :
  snd (sdk_create method kwargs w st) = issue (SdkCall method kwargs) st.
Proof. reflexivity. Qed.

Lemma provider_call_state (w : World) (st : St AIClient) (c : call) :
  AIProvider_eqb (provider (self_ st)) LOCAL = false ->
  exists r, snd (provider_call (self_ st) c w st) = issue r st.
Proof.
  intros Hp.
  destruct c; unfold provider_call, chat_completion_try,
    text_completion_try, create_embedding_try;
    destruct (provider (self_ st)); try discriminate Hp;
    destruct (client (self_ st)); cbn [AIProvider_eqb andb is_some];
    rewrite ?bind_lift_state;
    rewrite ?post_json_state, ?sdk_create_state; eexists; reflexivity.
Qed.

(** X3. Against a remote provider every operation issues exactly one
    request, whatever the outcome: a failed call is not retried and the
    fallback sends nothing. *)
Theorem remote_call_issues_one_request (w : World) (st : St AIClient)
    (c : call) :
  AIProvider_eqb (provider (self_ st)) LOCAL = false ->
  exists r, trace (snd (invoke c w st)) = (trace st ++ [r])%list.
Proof.
  intros Hp.
  destruct (provider_call_state w st c Hp) as [r Hr].
  exists r.
  destruct c; unfold invoke, chat_completion, text_completion,
    create_embedding; unfold provider_call in Hr;
    unfold bind at 1; unfold M_monad, get_self; cbv beta iota zeta;
    (rewrite try_trace; [rewrite Hr; reflexivity |]);
    intros e st1; destruct (falls_back (self_ st));
    first [rewrite _local_embedding_spec; reflexivity | reflexivity].
Qed.

Lemma remote_call_issues_one_request_witness :
  exists r,
    trace (snd (invoke (TextCall "poem" None (Some (7 # 10)) None [])
                  offline_world (fresh deepseek_fixture)))
    = ([] ++ [r])%list.
Proof.
  apply (remote_call_issues_one_request offline_world
           (fresh deepseek_fixture)
           (TextCall "poem" None (Some (7 # 10)) None [])).
  reflexivity.
Defined.

(** ** Construction, once more *)

(** X4. A constructed client always sends ["Content-Type:
    application/json"], and an ["Authorization: Bearer <key>"] header
    exactly when it holds a non-empty key. An explicit non-empty key is the
    key of every remote client; an Ollama client never takes a key from the
    environment; a local client keeps neither key nor URL. *)
Theorem init_headers_follow_key (env : Env) (arg : provider_arg)
    (key url : option string) (fallback : bool) (c : AIClient) :
  __init__ env arg key url fallback = Ok c ->
  dict_get "Content-Type" (ai_client.headers c)
    = Some (VStr "application/json") /\
  dict_get "Authorization" (ai_client.headers c)
    = (if truthy_str (ai_client.api_key c)
       then Some (VStr ("Bearer " ++ fstr (ai_client.api_key c)))
       else None) /\
  (truthy_str key = true -> provider c <> LOCAL ->
   ai_client.api_key c = key) /\
  (provider c = OLLAMA -> ai_client.api_key c = key) /\
  (provider c = LOCAL ->
   ai_client.api_key c = None /\ ai_client.base_url c = None).
Proof.
  unfold __init__. destruct (resolve_provider arg) as [p | e];
    [| discriminate]. cbn [bind result_monad].
  destruct p.
  - destruct (negb _ && negb _); [discriminate |]. intros [= <-].
    cbn. unfold make_headers, or_str.
    destruct (truthy_str key) eqn:Hk.
    + rewrite Hk. repeat split; try reflexivity; try discriminate.
    + destruct (truthy_str (environ env "OPENAI_API_KEY")) eqn:He;
        repeat split; try reflexivity; try discriminate.
  - destruct (negb _ && negb _); [discriminate |]. intros [= <-].
    cbn. unfold make_headers, or_str.
    destruct (truthy_str key) eqn:Hk.
    + rewrite Hk. repeat split; try reflexivity; try discriminate.
    + destruct (truthy_str (environ env "DEEPSEEK_API_KEY")) eqn:He;
        repeat split; try reflexivity; try discriminate.
  - intros [= <-]. cbn. unfold make_headers.
    destruct (truthy_str key) eqn:Hk;
      repeat split; try reflexivity; try discriminate.
  - intros [= <-]. cbn.
    repeat split; try reflexivity; try discriminate.
    intros _ Hneq. contradiction Hneq. reflexivity.
Qed.

Lemma init_headers_follow_key_witness :
  exists c,
    __init__ deepseek_env (ByName "deepseek") None None false = Ok c /\
    dict_get "Authorization" (ai_client.headers c)
      = Some (VStr "Bearer sk-test").
Proof.
  eexists. split; [reflexivity |].
  apply (proj1 (proj2 (init_headers_follow_key deepseek_env
                         (ByName "deepseek") None None false _ eq_refl))).
Defined.

(** ** What a completion sends and returns *)

Lemma post_json_spec {C} (url : string) (headers payload : dict)
    (w : World) (st : St C) :
  post_json url headers payload w st
  = (http_json w (trace st) (HttpPost url headers (VDict payload)),
     issue (HttpPost url headers (VDict payload)) st).
Proof.
  unfold post_json, http_json, requests_post, lift.
  unfold bind, M_monad, result_monad. cbv beta iota.
  destruct (http_send w (trace st) _) as [resp | e]; [| reflexivity].
  destruct (raise_for_status resp) as [[] | e1]; reflexivity.
Qed.

(** The whole behaviour of a completion that goes through [requests]. *)
Lemma complete_spec (w : World) (st : St AIClient) (k : completion)
    (model : option string) (temperature : option Q)
    (max_tokens : option Z) (kwargs : dict) :
  uses_requests (self_ st) = true ->
  let r := completion_request (self_ st) k model temperature max_tokens
             kwargs in
  complete k model temperature max_tokens kwargs w st
  = match http_json w (trace st) r with
    | Ok body => (Ok body, issue r st)
    | Raise e =>
        if falls_back (self_ st)
        then offline_stub (self_ st)
               (call_of k model temperature max_tokens kwargs) w
               (issue r st)
        else (Raise e, issue r st)
    end.
Proof.
  intros Hpath r. subst r. apply uses_requests_cases in Hpath.
  unfold completion_request.
  destruct k; unfold complete, chat_completion, text_completion;
    unfold bind at 1; unfold M_monad, get_self, try_except_Exception;
    cbv beta iota zeta;
    unfold chat_completion_try, text_completion_try;
    destruct Hpath as [Hp | [[Hp Hc] | Hp]];
    rewrite ?Hp, ?Hc;
    cbn [AIProvider_eqb andb is_some completion_path
         default_completion_model call_of offline_stub input_key
         input_value];
    rewrite post_json_spec; rewrite ?Hp;
    match goal with
    | |- context [http_json ?w ?t ?r] => destruct (http_json w t r)
    end; try reflexivity;
    destruct (falls_back (self_ st)); reflexivity.
Qed.

(** X5. A client constructed for a remote provider and working through
    [requests] posts a completion to its base URL (the one given when it is
    a non-empty string, else the provider's own) followed by the path of the
    operation: [/chat/completions] and [/completions] for OpenAI and
    DeepSeek, [/api/chat] and [/api/generate] for Ollama. *)
Theorem constructed_client_endpoint (env : Env) (arg : provider_arg)
    (p : AIProvider) (key url : option string) (fallback : bool)
    (c : AIClient) (w : World) (k : completion) (model : option string)
    (temperature : option Q) (max_tokens : option Z) (kwargs : dict) :
  resolve_provider arg = Ok p ->
  __init__ env arg key url fallback = Ok c ->
  uses_requests c = true ->
  exists headers payload,
    trace (snd (complete k model temperature max_tokens kwargs w (fresh c)))
    = [HttpPost
         (fstr (or_str url (default_base_url p)) ++ completion_path p k)
         headers payload].
Proof.
  intros Hres Hinit Hpath.
  assert (Hfields : provider c = p /\
                    ai_client.base_url c = or_str url (default_base_url p)).
  { unfold __init__ in Hinit. rewrite Hres in Hinit.
    cbn [bind result_monad] in Hinit.
    destruct p.
    - destruct (negb _ && negb _); [discriminate |].
      injection Hinit as <-. split; reflexivity.
    - destruct (negb _ && negb _); [discriminate |].
      injection Hinit as <-. split; reflexivity.
    - injection Hinit as <-. split; reflexivity.
    - injection Hinit as <-. discriminate Hpath. }
  destruct Hfields as [Hp Hurl].
  pose proof (complete_spec w (fresh c) k model temperature max_tokens
                kwargs Hpath) as Hspec.
  cbv zeta in Hspec. rewrite Hspec. clear Hspec.
  unfold completion_request. cbn [self_ fresh]. rewrite Hurl, Hp.
  eexists. eexists.
  match goal with
  | |- context [http_json ?w0 ?t ?r] => destruct (http_json w0 t r)
  end; [reflexivity |].
  destruct (falls_back c); [| reflexivity].
  rewrite offline_stub_trace. reflexivity.
Qed.

Lemma constructed_client_endpoint_witness :
  exists headers payload,
    trace (snd (complete (Text "poem") None (Some (7 # 10)) None []
                  offline_world
                  (fresh (client_of OLLAMA true
                            (Some "http://gpu-box:11434")))))
    = [HttpPost "http://gpu-box:11434/api/generate" headers payload].
Proof.
  apply (constructed_client_endpoint empty_env (ByName "ollama") OLLAMA
           None (Some "http://gpu-box:11434") true
           (client_of OLLAMA true (Some "http://gpu-box:11434"))
           offline_world (Text "poem") None (Some (7 # 10)) None []).
  - reflexivity.
  - reflexivity.
  - reflexivity.
Defined.

(** ** The answers of the stub *)

(** X6. Whatever the provider of the client, [get_completion_text] reads
    the fixed text out of the answer of the chat stub and
    [get_text_completion] reads the fixed text out of the answer of the text
    stub; each extractor gives the empty string on the answer of the other
    stub. *)
Theorem stub_answers_are_readable (self : AIClient) (messages : value)
    (prompt model : string) (temperature : option Q)
    (max_tokens : option Z) (kwargs : dict) (w : World)
    (st : St AIClient) :
  (exists answer,
     _local_chat_completion messages model temperature max_tokens kwargs
       w st = (Ok answer, st) /\
     get_completion_text self answer = Ok (VStr chat_placeholder) /\
     get_text_completion self answer = Ok (VStr "")) /\
  (exists answer,
     _local_text_completion prompt model temperature max_tokens kwargs
       w st = (Ok answer, st) /\
     get_text_completion self answer = Ok (VStr text_placeholder) /\
     get_completion_text self answer = Ok (VStr "")).
Proof.
  split; eexists; (split; [reflexivity |]);
    unfold get_completion_text, get_text_completion;
    destruct (provider self); split; reflexivity.
Qed.

Lemma invoke_call_of (k : completion) (model : option string)
    (temperature : option Q) (max_tokens : option Z) (kwargs : dict) :
  invoke (call_of k model temperature max_tokens kwargs)
  = complete k model temperature max_tokens kwargs.
Proof. destruct k; reflexivity. Qed.

(** X7. The answer a completion falls back on names the model the method
    had resolved for the remote provider (the explicit one, else the
    provider's default such as ["gpt-3.5-turbo"]), not a model of the
    stub. *)
Theorem fallback_answer_names_model (w : World) (st st' : St AIClient)
    (k : completion) (model : option string) (temperature : option Q)
    (max_tokens : option Z) (kwargs : dict) (e : exn) :
  falls_back (self_ st) = true ->
  provider_call (self_ st)
    (call_of k model temperature max_tokens kwargs) w st
  = (Raise e, st') ->
  exists d,
    complete k model temperature max_tokens kwargs w st
    = (Ok (VDict d), st') /\
    dict_get "model" d
    = Some (VStr (model_or model
                    (default_completion_model (provider (self_ st)) k))).
Proof.
  intros Hfb Hcall.
  rewrite <- invoke_call_of.
  rewrite (invoke_after_failure w st st' _ e Hcall), Hfb.
  destruct k; eexists; split; reflexivity.
Qed.

Lemma fallback_answer_names_model_witness :
  exists d st',
    complete (Chat hello_messages) None (Some (7 # 10)) None []
      offline_world
      (fresh (client_of OPENAI true (Some "https://api.openai.com/v1")))
    = (Ok (VDict d), st') /\
    dict_get "model" d = Some (VStr "gpt-3.5-turbo").
Proof.
  destruct (fallback_answer_names_model offline_world
              (fresh (client_of OPENAI true
                        (Some "https://api.openai.com/v1")))
              _ (Chat hello_messages) None (Some (7 # 10)) None []
              connection_refused eq_refl eq_refl)
    as (d & Hrun & Hmodel).
  exists d. eexists. split; [exact Hrun | exact Hmodel].
Defined.

(** ** Extra keyword arguments *)

(** X8. [AIClient] does not forward extra keyword arguments to an Ollama
    server: a completion with extras behaves exactly like the completion
    without them. *)
Theorem ollama_completion_ignores_extras (w : World) (st : St AIClient)
    (k : completion) (model : option string) (temperature : option Q)
    (max_tokens : option Z) (kwargs : dict) :
  provider (self_ st) = OLLAMA ->
  complete k model temperature max_tokens kwargs w st
  = complete k model temperature max_tokens [] w st.
Proof.
  intros Hp.
  assert (Hpath : uses_requests (self_ st) = true).
  { unfold uses_requests. rewrite Hp. reflexivity. }
  pose proof (complete_spec w st k model temperature max_tokens kwargs
                Hpath) as H1.
  pose proof (complete_spec w st k model temperature max_tokens []
                Hpath) as H2.
  cbv zeta in H1, H2. rewrite H1, H2. clear H1 H2.
  unfold completion_request. rewrite Hp. cbn [AIProvider_eqb].
  destruct (http_json w (trace st) _); [reflexivity |].
  destruct (falls_back (self_ st)); [| reflexivity].
  destruct k; reflexivity.
Qed.

Lemma ollama_completion_ignores_extras_witness :
  complete (Chat hello_messages) None (Some (7 # 10)) None top_p_extra
    (replying_world (ollama_chat_answer "hello")) (fresh ollama_aiclient)
  = complete (Chat hello_messages) None (Some (7 # 10)) None []
      (replying_world (ollama_chat_answer "hello")) (fresh ollama_aiclient).
Proof.
  apply (ollama_completion_ignores_extras
           (replying_world (ollama_chat_answer "hello"))
           (fresh ollama_aiclient) (Chat hello_messages) None
           (Some (7 # 10)) None top_p_extra).
  reflexivity.
Defined.

Lemma dict_get_none_iff (k : string) (d : dict) :
  dict_get k d = None <-> ~ In k (map fst d).
Proof.
  induction d as [| [k' v] d IH]; simpl.
  - tauto.
  - destruct (String.eqb k k') eqn:Hk.
    + apply String.eqb_eq in Hk. subst k'.
      split; [discriminate | intros H; contradiction H; auto].
    + apply String.eqb_neq in Hk. rewrite IH.
      split; [intros H [Heq | Hin]; [congruence | auto] | auto].
Qed.

Lemma dict_get_rev_none (k : string) (d : dict) :
  dict_get k d = None -> dict_get k (rev d) = None.
Proof.
  rewrite !dict_get_none_iff, map_rev. intros H Hin. apply H.
  apply in_rev. exact Hin.
Qed.

Lemma dict_get_app (k : string) (d1 d2 : dict) :
  dict_get k (d1 ++ d2)%list
  = match dict_get k d1 with Some v => Some v | None => dict_get k d2 end.
Proof.
  induction d1 as [| [k' v] d1 IH]; simpl; [reflexivity |].
  destruct (String.eqb k k'); [reflexivity | exact IH].
Qed.

Lemma dict_get_set (k k' : string) (v : value) (d : dict) :
  dict_get k (dict_set k' v d)
  = if String.eqb k k' then Some v else dict_get k d.
Proof.
  destruct (String.eqb k k') eqn:Hk.
  - apply String.eqb_eq in Hk. subst k'. apply dict_get_set_eq.
  - apply dict_get_set_neq. exact Hk.
Qed.

(** [{**d, **extra}] read at a key: the last value of [extra], else the
    value of [d]. *)
Lemma dict_get_update_last (k : string) (d extra : dict) :
  dict_get k (dict_update d extra)
  = match dict_get k (rev extra) with
    | Some v => Some v
    | None => dict_get k d
    end.
Proof.
  revert d. induction extra as [| [k' v'] extra IH]; intros d.
  - reflexivity.
  - change (dict_update d ((k', v') :: extra))
      with (dict_update (dict_set k' v' d) extra).
    rewrite IH. cbn [rev]. rewrite dict_get_app.
    destruct (dict_get k (rev extra)); [reflexivity |].
    rewrite dict_get_set. cbn [dict_get].
    destruct (String.eqb k k'); reflexivity.
Qed.

Lemma dict_mem_false (k : string) (d : dict) :
  dict_mem k d = false -> dict_get k d = None.
Proof. unfold dict_mem. destruct (dict_get k d); [discriminate | auto]. Qed.

(** X9. The extras do reach OpenAI and DeepSeek: an extra is a top-level
    field of the payload (with the last value given for its name), next to
    [model] and the input, which no extra can replace. *)
Theorem hosted_payload_carries_extras (k : completion) (model : string)
    (temperature : option Q) (max_tokens : option Z) (kwargs : dict)
    (name : string) (v : value) :
  kwargs_ok k kwargs = true ->
  dict_get name (rev kwargs) = Some v ->
  let payload :=
    hosted_payload (input_key k) (input_value k) model temperature
      max_tokens kwargs in
  dict_get name payload = Some v /\
  dict_get "model" payload = Some (VStr model) /\
  dict_get (input_key k) payload = Some (input_value k).
Proof.
  intros Hok Hname payload.
  unfold kwargs_ok in Hok. cbn [forallb] in Hok.
  repeat (apply Bool.andb_true_iff in Hok; destruct Hok as [? Hok]).
  repeat match goal with
         | H : negb _ = true |- _ =>
             apply Bool.negb_true_iff, dict_mem_false in H
         end.
  assert (Hneq : String.eqb name "max_tokens" = false).
  { destruct (String.eqb name "max_tokens") eqn:Heq; [| reflexivity].
    apply String.eqb_eq in Heq. subst name.
    rewrite dict_get_rev_none in Hname by assumption. discriminate Hname. }
  subst payload. unfold hosted_payload.
  assert (Hbase : forall key,
            dict_get key
              (dict_update [("model", VStr model);
                            (input_key k, input_value k);
                            ("temperature", of_float temperature)] kwargs)
            = match dict_get key (rev kwargs) with
              | Some x => Some x
              | None =>
                  dict_get key [("model", VStr model);
                                (input_key k, input_value k);
                                ("temperature", of_float temperature)]
              end).
  { intros key. apply dict_get_update_last. }
  destruct max_tokens as [n |].
  - rewrite dict_get_set_neq by exact Hneq.
    rewrite (dict_get_set_neq "model") by reflexivity.
    rewrite (dict_get_set_neq (input_key k)) by (destruct k; reflexivity).
    rewrite !Hbase, Hname.
    rewrite !dict_get_rev_none by assumption.
    destruct k; repeat split; reflexivity.
  - rewrite !Hbase, Hname.
    rewrite !dict_get_rev_none by assumption.
    destruct k; repeat split; reflexivity.
Qed.

Lemma hosted_payload_carries_extras_witness :
  dict_get "top_p"
    (hosted_payload "messages" hello_messages "deepseek-chat"
       (Some (7 # 10)) (Some 256) top_p_extra)
  = Some (VFloat (9 # 10)).
Proof.
  apply (hosted_payload_carries_extras (Chat hello_messages)
           "deepseek-chat" (Some (7 # 10)) (Some 256) top_p_extra "top_p"
           (VFloat (9 # 10)) eq_refl eq_refl).
Defined.

(** ** Reading the text of an answer *)

Ltac read_answer :=
  repeat (progress (cbn [bind result_monad try_except hasattr py_in
                         isinstance_dict getitem_str getitem_0 andb
                         AIProvider_eqb];
                    unfold dict_mem));
  repeat match goal with
         | H : dict_get _ _ = _ |- _ => rewrite H
         end.

(** X10. [get_completion_text] returns the content of the first choice of
    an answer in the format of OpenAI and DeepSeek (for an Ollama client,
    when the answer has no ["message"]), and the content of ["message"] of
    an answer in the format of Ollama when the client is an Ollama
    client. *)
Theorem chat_text_is_read_back (self : AIClient) (d c m : dict)
    (rest : list value) (t : value) :
  (dict_get "choices" d = Some (VList (VDict c :: rest)) ->
   dict_get "message" c = Some (VDict m) ->
   dict_get "content" m = Some t ->
   (provider self = OLLAMA -> dict_get "message" d = None) ->
   get_completion_text self (VDict d) = Ok t) /\
  (provider self = OLLAMA ->
   dict_get "message" d = Some (VDict m) ->
   dict_get "content" m = Some t ->
   get_completion_text self (VDict d) = Ok t).
Proof.
  split.
  - intros Hc Hm Ht Hollama. unfold get_completion_text.
    destruct (provider self) eqn:Hp;
      try specialize (Hollama eq_refl);
      do 4 read_answer; reflexivity.
  - intros Hp Hm Ht. unfold get_completion_text. rewrite Hp.
    do 4 read_answer. reflexivity.
Qed.

Lemma chat_text_is_read_back_witness :
  get_completion_text deepseek_fixture (hosted_chat_answer "hello")
    = Ok (VStr "hello") /\
  get_completion_text ollama_aiclient (ollama_chat_answer "hello")
    = Ok (VStr "hello").
Proof.
  split.
  - apply (proj1 (chat_text_is_read_back deepseek_fixture _
                    [("index", VInt 0);
                     ("message", VDict [("role", VStr "assistant");
                                        ("content", VStr "hello")]);
                     ("finish_reason", VStr "stop")]
                    [("role", VStr "assistant"); ("content", VStr "hello")]
                    [] (VStr "hello"))).
    + reflexivity.
    + reflexivity.
    + reflexivity.
    + discriminate.
  - apply (proj2 (chat_text_is_read_back ollama_aiclient _ []
                    [("role", VStr "assistant"); ("content", VStr "hello")]
                    [] (VStr "hello"))).
    + reflexivity.
    + reflexivity.
    + reflexivity.
Defined.

(** X11. [get_text_completion] returns the text of the first choice of an
    answer in the format of OpenAI and DeepSeek (for an Ollama client, when
    the answer has no ["response"]), and the value of ["response"] of an
    answer in the format of Ollama when the client is an Ollama client. *)
Theorem completion_text_is_read_back (self : AIClient) (d c : dict)
    (rest : list value) (t : value) :
  (dict_get "choices" d = Some (VList (VDict c :: rest)) ->
   dict_get "text" c = Some t ->
   (provider self = OLLAMA -> dict_get "response" d = None) ->
   get_text_completion self (VDict d) = Ok t) /\
  (provider self = OLLAMA ->
   dict_get "response" d = Some t ->
   get_text_completion self (VDict d) = Ok t).
Proof.
  split.
  - intros Hc Ht Hollama. unfold get_text_completion.
    destruct (provider self) eqn:Hp;
      try specialize (Hollama eq_refl);
      do 4 read_answer; reflexivity.
  - intros Hp Ht. unfold get_text_completion. rewrite Hp.
    do 4 read_answer. reflexivity.
Qed.

Lemma completion_text_is_read_back_witness :
  get_text_completion deepseek_fixture (hosted_text_answer "a poem")
    = Ok (VStr "a poem") /\
  get_text_completion ollama_aiclient (ollama_text_answer "a poem")
    = Ok (VStr "a poem").
Proof.
  split.
  - apply (proj1 (completion_text_is_read_back deepseek_fixture _
                    [("text", VStr "a poem"); ("index", VInt 0);
                     ("finish_reason", VStr "stop")]
                    [] (VStr "a poem"))).
    + reflexivity.
    + reflexivity.
    + discriminate.
  - apply (proj2 (completion_text_is_read_back ollama_aiclient _ [] []
                    (VStr "a poem"))).
    + reflexivity.
    + reflexivity.
Defined.

(** X12. On an answer that is a dict without ["choices"] (and, for an
    Ollama client, without ["message"], respectively ["response"]) both
    extractors return the empty string. *)
Theorem extraction_without_top_level_key (self : AIClient) (d : dict) :
  dict_mem "choices" d = false ->
  (provider self = OLLAMA -> dict_mem "message" d = false) ->
  (provider self = OLLAMA -> dict_mem "response" d = false) ->
  get_completion_text self (VDict d) = Ok (VStr "") /\
  get_text_completion self (VDict d) = Ok (VStr "").
Proof.
  intros Hc Hm Hr. split.
  - apply get_completion_text_no_top_level_key; assumption.
  - apply get_text_completion_no_top_level_key; assumption.
Qed.

Lemma extraction_without_top_level_key_witness :
  get_completion_text deepseek_fixture (ollama_chat_answer "hello")
    = Ok (VStr "") /\
  get_text_completion deepseek_fixture (ollama_chat_answer "hello")
    = Ok (VStr "").
Proof.
  apply (extraction_without_top_level_key deepseek_fixture
           [("model", VStr "llama2");
            ("message", VDict [("role", VStr "assistant");
                               ("content", VStr "hello")]);
            ("done", VBool true)]).
  - reflexivity.
  - discriminate.
  - discriminate.
Defined.

(** X13. On an answer that is a dict the two extractors let no exception
    through but a [TypeError]: every [KeyError] and [IndexError] of the
    lookups becomes the empty string. *)
Theorem extraction_raises_only_TypeError (self : AIClient) (d : dict)
    (e : exn) :
  get_completion_text self (VDict d) = Raise e \/
  get_text_completion self (VDict d) = Raise e ->
  exn_cls e = TypeError.
Proof.
  intros [H | H].
  - exact (get_completion_text_raises_only_TypeError self d e H).
  - exact (get_text_completion_raises_only_TypeError self d e H).
Qed.

Lemma extraction_raises_only_TypeError_witness :
  exn_cls (mk_exn TypeError "string indices must be integers") = TypeError.
Proof.
  apply (extraction_raises_only_TypeError ollama_aiclient
           [("message", VStr "hello")]
           (mk_exn TypeError "string indices must be integers")).
  left. reflexivity.
Defined.

(** ** The names of the models *)

Lemma map_result_names (entries names : list value) :
  Forall2 has_name entries names ->
  map_result (fun model => getitem_str model "name") entries = Ok names.
Proof.
  induction 1 as [| entry name entries names (d & -> & Hname) _ IH].
  - reflexivity.
  - cbn [map_result getitem_str bind result_monad].
    rewrite Hname, IH. reflexivity.
Qed.

Lemma map_result_fails {A B} (f : A -> result B) (l : list A) :
  Exists (fun x => is_raise (f x) = true) l ->
  is_raise (map_result f l) = true.
Proof.
  induction l as [| x l IH]; intros Hex.
  - inversion Hex.
  - cbn [map_result bind result_monad].
    destruct (f x) as [y | e] eqn:Hx; [| reflexivity].
    inversion Hex as [? ? Hhead | ? ? Htail]; subst.
    + rewrite Hx in Hhead. discriminate Hhead.
    + specialize (IH Htail).
      destruct (map_result f l); [discriminate IH | reflexivity].
Qed.

(** The whole behaviour of the two listing methods. *)
Lemma list_ollama_models_spec (w : World) (st : St AIClient) :
  provider (self_ st) = OLLAMA ->
  list_ollama_models w st
  = let r := HttpGet (fstr (ai_client.base_url (self_ st)) ++ "/api/tags") in
    (Ok match body <- http_json w (trace st) r ;; model_names body with
        | Ok names => names
        | Raise _ => []
        end,
     issue r st).
Proof.
  intros Hp. unfold list_ollama_models, http_json.
  unfold bind at 1. unfold M_monad, get_self, try_except_Exception.
  cbv beta iota zeta. rewrite Hp. cbn [AIProvider_eqb negb].
  unfold requests_get, lift, bind, M_monad, result_monad.
  cbv beta iota.
  destruct (http_send w (trace st) _) as [resp | e]; [| reflexivity].
  destruct (raise_for_status resp) as [[] | e1]; [| reflexivity].
  destruct (response_json resp) as [body | e2]; [| reflexivity].
  destruct (model_names body); reflexivity.
Qed.

Lemma list_models_spec (w : World) (st : St ollama_client.OllamaClient) :
  ollama_client.list_models w st
  = let r := HttpGet (ollama_client.base_url (self_ st) ++ "/api/tags") in
    (Ok match body <- http_json w (trace st) r ;; model_names body with
        | Ok names => names
        | Raise _ => []
        end,
     issue r st).
Proof.
  unfold ollama_client.list_models, http_json.
  unfold bind at 1. unfold M_monad, get_self, try_except_Exception.
  cbv beta iota zeta.
  unfold requests_get, lift, bind, M_monad, result_monad.
  cbv beta iota.
  destruct (http_send w (trace st) _) as [resp | e]; [| reflexivity].
  destruct (raise_for_status resp) as [[] | e1]; [| reflexivity].
  destruct (response_json resp) as [body | e2]; [| reflexivity].
  destruct (model_names body); reflexivity.
Qed.

Lemma http_json_ok (w : World) (sent : list request) (r : request)
    (resp : http_response) (body : value) :
  http_send w sent r = Ok resp ->
  raise_for_status resp = Ok tt ->
  json_body resp = Some body ->
  http_json w sent r = Ok body.
Proof.
  intros Hsend Hstatus Hbody. unfold http_json, response_json.
  cbn [bind result_monad]. rewrite Hsend, Hstatus, Hbody. reflexivity.
Qed.

(** X14. When the server answers [GET /api/tags] with a list of models that
    all have a name, [list_ollama_models] of an Ollama client and
    [OllamaClient.list_models] return the names, in the order of the
    list. *)
Theorem model_names_are_listed (w : World) (st : St AIClient)
    (st2 : St ollama_client.OllamaClient) (resp : http_response)
    (body : dict) (entries names : list value) :
  provider (self_ st) = OLLAMA ->
  (forall sent r, http_send w sent r = Ok resp) ->
  raise_for_status resp = Ok tt ->
  json_body resp = Some (VDict body) ->
  dict_get "models" body = Some (VList entries) ->
  Forall2 has_name entries names ->
  fst (list_ollama_models w st) = Ok names /\
  fst (ollama_client.list_models w st2) = Ok names.
Proof.
  intros Hp Hsend Hstatus Hbody Hmodels Hnames.
  assert (Hread : model_names (VDict body) = Ok names).
  { unfold model_names. cbn [py_get bind result_monad]. rewrite Hmodels.
    cbn [py_iter]. apply map_result_names. exact Hnames. }
  rewrite list_ollama_models_spec by exact Hp. rewrite list_models_spec.
  cbv zeta. cbn [fst].
  rewrite !(http_json_ok w _ _ resp (VDict body))
    by first [apply Hsend | assumption].
  cbn [bind result_monad]. rewrite Hread. split; reflexivity.
Qed.

Lemma model_names_are_listed_witness :
  fst (list_ollama_models (replying_world tags_body) (fresh ollama_aiclient))
    = Ok [VStr "llama2:latest"; VStr "mistral:7b"] /\
  fst (ollama_client.list_models (replying_world tags_body)
         (fresh ollama_fixture))
    = Ok [VStr "llama2:latest"; VStr "mistral:7b"].
Proof.
  apply (model_names_are_listed (replying_world tags_body)
           (fresh ollama_aiclient) (fresh ollama_fixture)
           (ok_response tags_body)
           [("models",
             VList [VDict [("name", VStr "llama2:latest")];
                    VDict [("name", VStr "mistral:7b")]])]
           [VDict [("name", VStr "llama2:latest")];
            VDict [("name", VStr "mistral:7b")]]
           [VStr "llama2:latest"; VStr "mistral:7b"]).
  - reflexivity.
  - intros sent r. reflexivity.
  - reflexivity.
  - reflexivity.
  - reflexivity.
  - repeat constructor; eexists; split; reflexivity.
Defined.

(** X15. The list is empty when the answer has no ["models"] key, and also
    when a single entry of ["models"] has no name: the names of the other
    entries are then lost with it. *)
Theorem one_nameless_model_empties_the_list (w : World) (st : St AIClient)
    (st2 : St ollama_client.OllamaClient) (resp : http_response)
    (body : dict) :
  provider (self_ st) = OLLAMA ->
  (forall sent r, http_send w sent r = Ok resp) ->
  raise_for_status resp = Ok tt ->
  json_body resp = Some (VDict body) ->
  dict_get "models" body = None \/
  (exists entries,
     dict_get "models" body = Some (VList entries) /\
     Exists nameless entries) ->
  fst (list_ollama_models w st) = Ok [] /\
  fst (ollama_client.list_models w st2) = Ok [].
Proof.
  intros Hp Hsend Hstatus Hbody Hcase.
  assert (Hread : match model_names (VDict body) with
                  | Ok names => names
                  | Raise _ => []
                  end = []).
  { unfold model_names. cbn [py_get bind result_monad].
    destruct Hcase as [Hnone | (entries & Hmodels & Hex)].
    - rewrite Hnone. reflexivity.
    - rewrite Hmodels. cbn [py_iter].
      pose proof (map_result_fails
                    (fun model => getitem_str model "name") entries Hex)
        as Hfail.
      destruct (map_result _ entries); [discriminate Hfail | reflexivity]. }
  rewrite list_ollama_models_spec by exact Hp. rewrite list_models_spec.
  cbv zeta. cbn [fst].
  rewrite !(http_json_ok w _ _ resp (VDict body))
    by first [apply Hsend | assumption].
  cbn [bind result_monad]. rewrite Hread. split; reflexivity.
Qed.

Lemma one_nameless_model_empties_the_list_witness :
  let body :=
    [("models",
      VList [VDict [("name", VStr "llama2:latest")];
             VDict [("model", VStr "mistral:7b")]])] in
  fst (list_ollama_models (replying_world (VDict body))
         (fresh ollama_aiclient)) = Ok [] /\
  fst (ollama_client.list_models (replying_world (VDict body))
         (fresh ollama_fixture)) = Ok [].
Proof.
  intros body.
  apply (one_nameless_model_empties_the_list
           (replying_world (VDict body)) (fresh ollama_aiclient)
           (fresh ollama_fixture) (ok_response (VDict body)) body).
  - reflexivity.
  - intros sent r. reflexivity.
  - reflexivity.
  - reflexivity.
  - right. eexists. split; [reflexivity |].
    apply Exists_cons_tl. apply Exists_cons_hd. reflexivity.
Defined.

(** ** The extras of [OllamaClient] *)

Section NestedExtras.
Variable reserved : list string.

Lemma fold_extras_nest (kwargs payload : dict) :
  options_is_dict payload ->
  payload_options
    (fold_left (ollama_client.add_extra reserved) kwargs payload)
  = fold_left (nest_extra reserved) kwargs (payload_options payload).
Proof.
  revert payload.
  induction kwargs as [| [key v] kwargs IH]; intros payload Hwf;
    cbn [fold_left].
  - reflexivity.
  - destruct (add_extra_options reserved payload key v Hwf) as [Hwf' Hopts].
    rewrite IH by exact Hwf'. rewrite Hopts. reflexivity.
Qed.

Lemma nest_extras_get (name : string) (kwargs options : dict) :
  existsb (String.eqb name) reserved = false ->
  dict_get name (fold_left (nest_extra reserved) kwargs options)
  = match dict_get name (rev kwargs) with
    | Some v => Some v
    | None => dict_get name options
    end.
Proof.
  intros Hfree. revert options.
  induction kwargs as [| [key v] kwargs IH]; intros options;
    cbn [fold_left].
  - reflexivity.
  - rewrite IH. cbn [rev]. rewrite dict_get_app.
    destruct (dict_get name (rev kwargs)); [reflexivity |].
    cbn [dict_get]. unfold nest_extra. cbn [fst snd].
    destruct (String.eqb name key) eqn:Hkey.
    + apply String.eqb_eq in Hkey. subst key. rewrite Hfree.
      apply dict_get_set_eq.
    + destruct (existsb (String.eqb key) reserved); [reflexivity |].
      apply dict_get_set_neq. exact Hkey.
Qed.

Lemma fold_extras_filter (kwargs payload : dict) :
  fold_left (ollama_client.add_extra reserved) kwargs payload
  = fold_left (ollama_client.add_extra reserved)
      (filter (fun kv => negb (existsb (String.eqb (fst kv)) reserved))
         kwargs)
      payload.
Proof.
  revert payload.
  induction kwargs as [| [key v] kwargs IH]; intros payload;
    cbn [fold_left filter fst].
  - reflexivity.
  - destruct (existsb (String.eqb key) reserved) eqn:Hres; cbn [negb].
    + rewrite <- IH. unfold ollama_client.add_extra at 2. rewrite Hres.
      reflexivity.
    + cbn [fold_left]. apply IH.
Qed.
End NestedExtras.

Lemma build_payload_base_options (k : completion) (model : string)
    (temperature : option Q) (max_tokens : option Z) :
  let base :=
    ollama_client.build_payload (input_key k) (input_value k) model
      temperature max_tokens [] in
  options_is_dict base /\
  payload_options base
  = ollama_client.base_options temperature max_tokens.
Proof.
  destruct k, temperature, max_tokens; split; try exact I; reflexivity.
Qed.

(** X16. [OllamaClient] puts every extra keyword argument whose name is not
    reserved ([model], the input, [stream], [options]) under ["options"] of
    the payload, with the last value given for its name. *)
Theorem ollama_client_nests_extras (k : completion) (model : string)
    (temperature : option Q) (max_tokens : option Z) (kwargs : dict)
    (name : string) (v : value) :
  ollama_reserved k name = false ->
  dict_get name (rev kwargs) = Some v ->
  dict_get name
    (payload_options
       (ollama_client.build_payload (input_key k) (input_value k) model
          temperature max_tokens kwargs))
  = Some v.
Proof.
  intros Hfree Hname.
  destruct (build_payload_base_options k model temperature max_tokens)
    as [Hwf Hbase].
  rewrite build_payload_unfold, fold_extras_nest by exact Hwf.
  rewrite nest_extras_get by exact Hfree.
  rewrite Hname. reflexivity.
Qed.

Lemma ollama_client_nests_extras_witness :
  dict_get "seed"
    (payload_options
       (ollama_client.build_payload "messages" hello_messages "llama2"
          None None seed_extra))
  = Some (VInt 42).
Proof.
  apply (ollama_client_nests_extras (Chat hello_messages) "llama2" None
           None seed_extra "seed" (VInt 42)).
  - reflexivity.
  - reflexivity.
Defined.

(** X17. Extras named [model], [stream], [options] or like the input are
    dropped by [OllamaClient]: the payload is the one built without them.
    With no temperature, no [max_tokens] and no other extra the payload has
    the three fields [model], input and [stream] and no ["options"]. *)
Theorem ollama_client_drops_reserved_extras (k : completion)
    (model : string) (temperature : option Q) (max_tokens : option Z)
    (kwargs : dict) :
  ollama_client.build_payload (input_key k) (input_value k) model
    temperature max_tokens kwargs
  = ollama_client.build_payload (input_key k) (input_value k) model
      temperature max_tokens
      (filter (fun kv => negb (ollama_reserved k (fst kv))) kwargs) /\
  (forallb (fun kv => ollama_reserved k (fst kv)) kwargs = true ->
   ollama_client.build_payload (input_key k) (input_value k) model
     None None kwargs
   = [("model", VStr model); (input_key k, input_value k);
      ("stream", VBool false)]).
Proof.
  split.
  - rewrite build_payload_unfold.
    rewrite (build_payload_unfold _ _ _ _ _ (filter _ kwargs)).
    apply fold_extras_filter.
  - intros Hall. rewrite build_payload_unfold, fold_extras_filter.
    replace (filter _ kwargs) with (@nil (string * value)).
    + reflexivity.
    + symmetry. induction kwargs as [| kv kwargs IH]; [reflexivity |].
      cbn [forallb] in Hall. apply Bool.andb_true_iff in Hall.
      destruct Hall as [Hkv Hall]. cbn [filter].
      unfold ollama_reserved in Hkv. rewrite Hkv. cbn [negb].
      apply IH. exact Hall.
Qed.

Lemma ollama_client_drops_reserved_extras_witness :
  ollama_client.build_payload "messages" hello_messages "llama2" None None
    ignored_extras
  = [("model", VStr "llama2"); ("messages", hello_messages);
     ("stream", VBool false)].
Proof.
  apply (proj2 (ollama_client_drops_reserved_extras (Chat hello_messages)
                  "llama2" None None ignored_extras)).
  reflexivity.
Defined.

(** ** [OllamaClient] has no fallback *)

Lemma reraise_spec {C A} (c : M C A) (w : World) (st : St C) :
  try_except_Exception c (fun e => raise e) w st = c w st.
Proof.
  unfold try_except_Exception, raise.
  destruct (c w st) as [[a | e] st1]; reflexivity.
Qed.

Lemma ollama_complete_spec (w : World)
    (st : St ollama_client.OllamaClient) (k : completion) (model : string)
    (temperature : option Q) (max_tokens : option Z) (kwargs : dict) :
  exists r,
    ollama_complete k model temperature max_tokens kwargs w st
    = (http_json w (trace st) r, issue r st).
Proof.
  destruct k; unfold ollama_complete, ollama_client.chat_completion,
    ollama_client.text_completion;
    unfold bind at 1; unfold M_monad, get_self; cbv beta iota;
    rewrite reraise_spec, post_json_spec; eexists; reflexivity.
Qed.

Lemma pull_model_spec (w : World) (st : St ollama_client.OllamaClient)
    (name : string) :
  let r := HttpPost (ollama_client.base_url (self_ st) ++ "/api/pull")
             (ollama_client.headers (self_ st))
             (VDict [("name", VStr name)]) in
  ollama_client.pull_model name w st
  = (http_json w (trace st) r, issue r st).
Proof.
  unfold ollama_client.pull_model.
  unfold bind at 1. unfold M_monad, get_self. cbv beta iota.
  rewrite reraise_spec, post_json_spec. reflexivity.
Qed.

Lemma ollama_create_embedding_spec (w : World)
    (st : St ollama_client.OllamaClient) (text model : string) :
  let r := HttpPost (ollama_client.base_url (self_ st) ++ "/api/embeddings")
             (ollama_client.headers (self_ st))
             (VDict [("model", VStr model); ("prompt", VStr text)]) in
  ollama_client.create_embedding text model w st
  = (body <- http_json w (trace st) r ;; getitem_str body "embedding",
     issue r st).
Proof.
  unfold ollama_client.create_embedding.
  unfold bind at 1. unfold M_monad, get_self. cbv beta iota.
  rewrite reraise_spec. unfold bind at 1. unfold M_monad.
  rewrite post_json_spec. unfold lift.
  destruct (http_json w (trace st) _); reflexivity.
Qed.

Lemma http_json_raises (w : World) (sent : list request) (r : request)
    (e : exn) :
  http_send w sent r = Raise e -> http_json w sent r = Raise e.
Proof.
  intros Hsend. unfold http_json. cbn [bind result_monad].
  rewrite Hsend. reflexivity.
Qed.

(** X18. [OllamaClient] has no fallback: when the request fails, its chat
    and text completions, [create_embedding] and [pull_model] raise the
    exception of the transport itself. *)
Theorem ollama_client_reraises (w : World)
    (st : St ollama_client.OllamaClient) (e : exn) (k : completion)
    (model text name : string) (temperature : option Q)
    (max_tokens : option Z) (kwargs : dict) :
  (forall r, http_send w (trace st) r = Raise e) ->
  fst (ollama_complete k model temperature max_tokens kwargs w st)
    = Raise e /\
  fst (ollama_client.create_embedding text model w st) = Raise e /\
  fst (ollama_client.pull_model name w st) = Raise e.
Proof.
  intros Hsend. split; [| split].
  - destruct (ollama_complete_spec w st k model temperature max_tokens
                kwargs) as [r Hr].
    rewrite Hr. cbn [fst]. apply http_json_raises. apply Hsend.
  - rewrite ollama_create_embedding_spec. cbv zeta. cbn [fst].
    rewrite (http_json_raises w _ _ e) by apply Hsend. reflexivity.
  - rewrite pull_model_spec. cbv zeta. cbn [fst].
    apply http_json_raises. apply Hsend.
Qed.

Lemma ollama_client_reraises_witness :
  fst (ollama_complete (Text "poem") "llama2" None None [] offline_world
         (fresh ollama_fixture)) = Raise connection_refused /\
  fst (ollama_client.create_embedding "hi" "llama2" offline_world
         (fresh ollama_fixture)) = Raise connection_refused /\
  fst (ollama_client.pull_model "llama2" offline_world
         (fresh ollama_fixture)) = Raise connection_refused.
Proof.
  apply (ollama_client_reraises offline_world (fresh ollama_fixture)
           connection_refused (Text "poem") "llama2" "hi" "llama2" None
           None []).
  intros r. reflexivity.
Defined.

(** X19. [pull_model] posts the single field [name] to [/api/pull] of the
    client's server, with the client's headers, and returns the decoded
    answer of the server when the status is not an error. *)
Theorem pull_model_posts_name (w : World)
    (st : St ollama_client.OllamaClient) (name : string)
    (resp : http_response) (body : value) :
  (forall r, http_send w (trace st) r = Ok resp) ->
  raise_for_status resp = Ok tt ->
  json_body resp = Some body ->
  ollama_client.pull_model name w st
  = (Ok body,
     issue (HttpPost (ollama_client.base_url (self_ st) ++ "/api/pull")
              (ollama_client.headers (self_ st))
              (VDict [("name", VStr name)])) st).
Proof.
  intros Hsend Hstatus Hbody. rewrite pull_model_spec. cbv zeta.
  rewrite (http_json_ok w _ _ resp body) by first [apply Hsend | assumption].
  reflexivity.
Qed.

Lemma pull_model_posts_name_witness :
  ollama_client.pull_model "mistral:7b"
    (replying_world (VDict [("status", VStr "success")]))
    (fresh ollama_fixture)
  = (Ok (VDict [("status", VStr "success")]),
     issue (HttpPost "http://localhost:11434/api/pull"
              [("Content-Type", VStr "application/json")]
              (VDict [("name", VStr "mistral:7b")]))
       (fresh ollama_fixture)).
Proof.
  apply (pull_model_posts_name
           (replying_world (VDict [("status", VStr "success")]))
           (fresh ollama_fixture) "mistral:7b"
           (ok_response (VDict [("status", VStr "success")]))
           (VDict [("status", VStr "success")])).
  - intros r. reflexivity.
  - reflexivity.
  - reflexivity.
Defined.

(** X20. [OllamaClient.create_embedding] returns the value of
    ["embedding"] of a dict answer; when the key is missing the [KeyError]
    is raised to the caller, there being no stub to fall back on. *)
Theorem ollama_client_embedding (w : World)
    (st : St ollama_client.OllamaClient) (text model : string)
    (resp : http_response) (d : dict) :
  (forall r, http_send w (trace st) r = Ok resp) ->
  raise_for_status resp = Ok tt ->
  json_body resp = Some (VDict d) ->
  fst (ollama_client.create_embedding text model w st)
  = match dict_get "embedding" d with
    | Some v => Ok v
    | None => Raise (mk_exn KeyError "embedding")
    end.
Proof.
  intros Hsend Hstatus Hbody.
  rewrite ollama_create_embedding_spec. cbv zeta. cbn [fst].
  rewrite (http_json_ok w _ _ resp (VDict d))
    by first [apply Hsend | assumption].
  reflexivity.
Qed.

Lemma ollama_client_embedding_witness :
  fst (ollama_client.create_embedding "hi" "llama2"
         (replying_world (VDict [("error", VStr "model not found")]))
         (fresh ollama_fixture))
  = Raise (mk_exn KeyError "embedding").
Proof.
  apply (ollama_client_embedding
           (replying_world (VDict [("error", VStr "model not found")]))
           (fresh ollama_fixture) "hi" "llama2"
           (ok_response (VDict [("error", VStr "model not found")]))
           [("error", VStr "model not found")]).
  - intros r. reflexivity.
  - reflexivity.
  - reflexivity.
Defined.

(** ** The unified client and the dedicated clients *)

Lemma try_except_without_AttributeError {A} (c : result A)
    (h : exn -> result A) :
  raises_lookup_errors c ->
  try_except c [KeyError; IndexError] h
  = try_except c [KeyError; IndexError; AttributeError] h.
Proof.
  intros Hc. destruct c as [a | e]; [reflexivity |].
  unfold try_except, caught_by.
  destruct (Hc e eq_refl) as [H | [H | H]]; rewrite H; reflexivity.
Qed.

(** X21. On an answer that is a dict, the extractors of [DeepSeekClient]
    give what the extractors of an [AIClient] for a provider other than
    Ollama give. *)
Theorem deepseek_extractors_agree (self : AIClient) (d : dict) :
  AIProvider_eqb (provider self) OLLAMA = false ->
  deepseek_client.get_completion_text (VDict d)
    = get_completion_text self (VDict d) /\
  deepseek_client.get_text_completion (VDict d)
    = get_text_completion self (VDict d).
Proof.
  intros Hp.
  unfold deepseek_client.get_completion_text,
    deepseek_client.get_text_completion, get_completion_text,
    get_text_completion.
  cbn [hasattr]. rewrite Bool.andb_false_r, Hp.
  cbn [bind result_monad isinstance_dict py_in].
  destruct (dict_mem "choices" d) eqn:Hc.
  - split; apply try_except_without_AttributeError;
      repeat first [ apply getitem_str_errors
                   | apply bind_errors;
                     [first [apply getitem_str_errors
                            | apply getitem_0_errors] | intro] ].
  - apply dict_mem_false in Hc. cbn [getitem_str]. rewrite Hc.
    split; reflexivity.
Qed.

Lemma deepseek_extractors_agree_witness :
  deepseek_client.get_completion_text (hosted_chat_answer "hello")
    = get_completion_text deepseek_fixture (hosted_chat_answer "hello") /\
  deepseek_client.get_text_completion (hosted_chat_answer "hello")
    = get_text_completion deepseek_fixture (hosted_chat_answer "hello").
Proof.
  apply (deepseek_extractors_agree deepseek_fixture).
  reflexivity.
Defined.

(** X22. On an answer that is a dict, [OllamaClient.get_completion_text]
    gives what an [AIClient] for Ollama gives, unless the answer has
    ["choices"] and no ["message"]: that answer (the format of the stub) is
    read by [AIClient] only. The same holds for [get_text_completion] and
    ["response"]. *)
Theorem ollama_extractors_agree (self : AIClient) (d : dict) :
  provider self = OLLAMA ->
  (dict_mem "message" d = true \/ dict_mem "choices" d = false ->
   ollama_client.get_completion_text (VDict d)
   = get_completion_text self (VDict d)) /\
  (dict_mem "response" d = true \/ dict_mem "choices" d = false ->
   ollama_client.get_text_completion (VDict d)
   = get_text_completion self (VDict d)) /\
  (dict_mem "message" d = false ->
   ollama_client.get_completion_text (VDict d) = Ok (VStr "")) /\
  (dict_mem "response" d = false ->
   ollama_client.get_text_completion (VDict d) = Ok (VStr "")).
Proof.
  intros Hp.
  unfold ollama_client.get_completion_text,
    ollama_client.get_text_completion, get_completion_text,
    get_text_completion.
  cbn [hasattr]. rewrite Bool.andb_false_r, Hp.
  cbn [bind result_monad isinstance_dict py_in AIProvider_eqb].
  split; [| split; [| split]].
  - intros [Hm | Hc].
    + rewrite Hm. reflexivity.
    + rewrite Hc. destruct (dict_mem "message" d); reflexivity.
  - intros [Hr | Hc].
    + rewrite Hr. reflexivity.
    + rewrite Hc. destruct (dict_mem "response" d); reflexivity.
  - intros Hm. rewrite Hm. reflexivity.
  - intros Hr. rewrite Hr. reflexivity.
Qed.

Lemma ollama_extractors_agree_witness :
  ollama_client.get_completion_text (ollama_chat_answer "hello")
    = get_completion_text ollama_aiclient (ollama_chat_answer "hello") /\
  ollama_client.get_completion_text (hosted_chat_answer "hello")
    = Ok (VStr "").
Proof.
  split.
  - apply (proj1 (ollama_extractors_agree ollama_aiclient
                    [("model", VStr "llama2");
                     ("message", VDict [("role", VStr "assistant");
                                        ("content", VStr "hello")]);
                     ("done", VBool true)] eq_refl)).
    left. reflexivity.
  - apply (proj1 (proj2 (proj2 (ollama_extractors_agree ollama_aiclient
                    [("id", VStr "chatcmpl-1");
                     ("choices",
                      VList [VDict [("index", VInt 0);
                                    ("message",
                                     VDict [("role", VStr "assistant");
                                            ("content", VStr "hello")]);
                                    ("finish_reason", VStr "stop")]])]
                    eq_refl)))).
    reflexivity.
Defined.

Lemma deepseek_complete_spec (w : World)
    (st : St deepseek_client.DeepSeekClient) (k : completion)
    (model : string) (temperature : option Q) (max_tokens : option Z)
    (kwargs : dict) :
  let r :=
    HttpPost
      (deepseek_client.base_url (self_ st) ++ completion_path DEEPSEEK k)
      (deepseek_client.headers (self_ st))
      (VDict (deepseek_client.build_payload (input_key k) (input_value k)
                model temperature max_tokens kwargs)) in
  deepseek_complete k model temperature max_tokens kwargs w st
  = (http_json w (trace st) r, issue r st).
Proof.
  destruct k; unfold deepseek_complete, deepseek_client.chat_completion,
    deepseek_client.text_completion;
    unfold bind at 1; unfold M_monad, get_self; cbv beta iota zeta;
    rewrite reraise_spec, post_json_spec; reflexivity.
Qed.

(** X23. [DeepSeekClient.__init__] raises exactly when neither the argument
    nor [DEEPSEEK_API_KEY] is a non-empty string, which is exactly when
    [AIClient.__init__] for DeepSeek raises with the fallback disabled; with
    the fallback enabled [AIClient.__init__] does not raise. *)
Theorem deepseek_init_agrees (env : Env) (key url : option string)
    (base : string) :
  (is_raise (deepseek_client.__init__ env key base) = true <->
   credential_supplied env DEEPSEEK key = false) /\
  is_raise (deepseek_client.__init__ env key base)
  = is_raise (__init__ env (ByEnum DEEPSEEK) key url false) /\
  is_raise (__init__ env (ByEnum DEEPSEEK) key url true) = false.
Proof.
  unfold deepseek_client.__init__, __init__, credential_supplied.
  cbn [bind result_monad resolve_provider credential_variable].
  rewrite truthy_or_str.
  destruct (truthy_str key), (truthy_str (environ env "DEEPSEEK_API_KEY"));
    cbn; repeat split; intros; congruence.
Qed.

(** X24. An [AIClient] constructed for DeepSeek with the fallback disabled
    and a non-empty base URL is interchangeable with the [DeepSeekClient]
    constructed from the same key and URL: every chat or text completion
    sends the same request and has the same outcome, and the default models
    of the two clients are the same. *)
Theorem deepseek_clients_interchangeable (env : Env) (key : option string)
    (base : string) (c : AIClient) (w : World) (k : completion)
    (model : option string) (temperature : option Q)
    (max_tokens : option Z) (kwargs : dict) :
  truthy_str (Some base) = true ->
  __init__ env (ByEnum DEEPSEEK) key (Some base) false = Ok c ->
  exists d,
    deepseek_client.__init__ env key base = Ok d /\
    let unified :=
      complete k model temperature max_tokens kwargs w (fresh c) in
    let dedicated :=
      deepseek_complete k (model_or model (deepseek_default_model k))
        temperature max_tokens kwargs w (fresh d) in
    fst unified = fst dedicated /\
    trace (snd unified) = trace (snd dedicated).
Proof.
  intros Hbase Hinit.
  unfold __init__ in Hinit.
  cbn [bind result_monad resolve_provider] in Hinit.
  unfold deepseek_client.__init__.
  destruct (truthy_str (or_str key (environ env "DEEPSEEK_API_KEY")))
    eqn:Hkey; cbn [negb andb] in Hinit |- *; [| discriminate Hinit].
  injection Hinit as <-.
  eexists. split; [reflexivity |].
  cbv zeta.
  rewrite complete_spec by reflexivity.
  rewrite deepseek_complete_spec.
  cbv zeta. unfold completion_request, falls_back, make_headers.
  cbn [self_ fresh provider ai_client.use_local_fallback
       ai_client.base_url ai_client.headers deepseek_client.base_url
       deepseek_client.headers trace AIProvider_eqb andb].
  rewrite Hkey.
  replace (or_str (Some base) (Some "https://api.deepseek.com/v1"))
    with (Some base) by (unfold or_str; rewrite Hbase; reflexivity).
  cbn [fstr].
  replace (default_completion_model DEEPSEEK k)
    with (deepseek_default_model k) by (destruct k; reflexivity).
  change (hosted_payload (input_key k) (input_value k)
            (model_or model (deepseek_default_model k)) temperature
            max_tokens kwargs)
    with (deepseek_client.build_payload (input_key k) (input_value k)
            (model_or model (deepseek_default_model k)) temperature
            max_tokens kwargs).
  destruct (http_json w [] _); split; reflexivity.
Qed.

Lemma deepseek_clients_interchangeable_witness :
  exists d,
    deepseek_client.__init__ deepseek_env None "https://api.deepseek.com/v1"
      = Ok d /\
    fst (complete (Chat hello_messages) None (Some (7 # 10)) None []
           (replying_world (hosted_chat_answer "hello"))
           (fresh {| provider := DEEPSEEK;
                     use_local_fallback := false;
                     ai_client.api_key := Some "sk-test";
                     ai_client.base_url := Some "https://api.deepseek.com/v1";
                     client := None;
                     ai_client.headers := make_headers (Some "sk-test") |}))
    = fst (deepseek_complete (Chat hello_messages) "deepseek-chat"
             (Some (7 # 10)) None []
             (replying_world (hosted_chat_answer "hello")) (fresh d)).
Proof.
  destruct (deepseek_clients_interchangeable deepseek_env None
              "https://api.deepseek.com/v1" _
              (replying_world (hosted_chat_answer "hello"))
              (Chat hello_messages) None (Some (7 # 10)) None []
              eq_refl eq_refl)
    as (d & Hd & Hsame & _).
  exists d. split; [exact Hd | exact Hsame].
Defined.

Lemma deepseek_init_agrees_witness :
  is_raise (deepseek_client.__init__ empty_env (Some "")
              "https://api.deepseek.com/v1") = true.
Proof.
  apply (proj1 (deepseek_init_agrees empty_env (Some "") None
                  "https://api.deepseek.com/v1")).
  reflexivity.
Defined.

(** ** Embeddings of a remote provider *)

Lemma create_embedding_success (w : World) (st st' : St AIClient)
    (text : string) (model : option string) (v : value) :
  create_embedding_try (self_ st) text
    (model_or model (default_embedding_model (provider (self_ st)))) w st
  = (Ok v, st') ->
  create_embedding text model w st = (Ok v, st').
Proof.
  intros Hcall. unfold create_embedding.
  unfold bind, M_monad, get_self, try_except_Exception.
  cbv beta iota. rewrite Hcall. reflexivity.
Qed.

(** X25. When the server answers an embedding request with a status that is
    not an error, [AIClient.create_embedding] returns the vector found at
    [data[0].embedding] of an OpenAI or DeepSeek answer and at [embedding]
    of an Ollama answer, untouched, and draws no random number. *)
Theorem embedding_is_read_back (w : World) (st : St AIClient)
    (text : string) (model : option string) (resp : http_response)
    (d first : dict) (rest : list value) (v : value) :
  uses_requests (self_ st) = true ->
  (forall r, http_send w (trace st) r = Ok resp) ->
  raise_for_status resp = Ok tt ->
  json_body resp = Some (VDict d) ->
  (if AIProvider_eqb (provider (self_ st)) OLLAMA
   then dict_get "embedding" d = Some v
   else dict_get "data" d = Some (VList (VDict first :: rest)) /\
        dict_get "embedding" first = Some v) ->
  fst (create_embedding text model w st) = Ok v /\
  rand_pos (snd (create_embedding text model w st)) = rand_pos st.
Proof.
  intros Hpath Hsend Hstatus Hbody Hshape.
  assert (Hlocal : AIProvider_eqb (provider (self_ st)) LOCAL = false).
  { unfold uses_requests in Hpath.
    destruct (provider (self_ st)); try reflexivity. discriminate Hpath. }
  assert (Hcall : exists st',
    create_embedding_try (self_ st) text
      (model_or model (default_embedding_model (provider (self_ st)))) w st
    = (Ok v, st') /\ rand_pos st' = rand_pos st).
  { rewrite create_embedding_try_split by exact Hlocal.
    unfold embedding_fetch, embedding_extract.
    apply uses_requests_cases in Hpath.
    destruct Hpath as [Hp | [[Hp Hc] | Hp]];
      rewrite ?Hp, ?Hc in *;
      cbn [AIProvider_eqb andb orb is_some] in *;
      unfold bind at 1; unfold M_monad;
      rewrite post_json_spec;
      rewrite (http_json_ok w _ _ resp (VDict d))
        by first [apply Hsend | assumption];
      unfold lift, hosted_embedding_of;
      cbn [getitem_str bind result_monad];
      match type of Hshape with
      | _ /\ _ =>
          let Hdata := fresh "Hdata" in
          let Hvec := fresh "Hvec" in
          destruct Hshape as [Hdata Hvec]; rewrite Hdata;
          cbn [getitem_0 getitem_str]; rewrite Hvec
      | _ => rewrite Hshape
      end;
      eexists; split; reflexivity. }
  destruct Hcall as (st' & Hcall & Hpos).
  rewrite (create_embedding_success w st st' text model v Hcall).
  split; [reflexivity | exact Hpos].
Qed.

Lemma embedding_is_read_back_witness :
  fst (create_embedding "hi" None
         (replying_world (hosted_embedding_answer sample_vector))
         (fresh deepseek_fixture))
  = Ok sample_vector.
Proof.
  apply (embedding_is_read_back
           (replying_world (hosted_embedding_answer sample_vector))
           (fresh deepseek_fixture) "hi" None
           (ok_response (hosted_embedding_answer sample_vector))
           [("object", VStr "list");
            ("data", VList [VDict [("index", VInt 0);
                                   ("embedding", sample_vector)]])]
           [("index", VInt 0); ("embedding", sample_vector)] []
           sample_vector).
  - reflexivity.
  - intros r. reflexivity.
  - reflexivity.
  - reflexivity.
  - split; reflexivity.
Defined.

(** ** Answers of the [openai] library *)

(** X26. An OpenAI client reads the text of an answer object of the
    [openai] library through its attributes ([choices[0].message.content]),
    and gives the empty string when the list of choices is empty; a
    DeepSeek or local client handed such an object gives the empty
    string. *)
Theorem object_answers (self : AIClient) (cls cls1 cls2 : string)
    (attrs attrs1 attrs2 : dict) (rest : list value) (t : value) :
  (provider self = OPENAI ->
   dict_get "choices" attrs = Some (VList (VObj cls1 attrs1 :: rest)) ->
   dict_get "message" attrs1 = Some (VObj cls2 attrs2) ->
   dict_get "content" attrs2 = Some t ->
   get_completion_text self (VObj cls attrs) = Ok t) /\
  (provider self = OPENAI ->
   dict_get "choices" attrs = Some (VList []) ->
   get_completion_text self (VObj cls attrs) = Ok (VStr "")) /\
  (provider self = DEEPSEEK \/ provider self = LOCAL ->
   get_completion_text self (VObj cls attrs) = Ok (VStr "") /\
   get_text_completion self (VObj cls attrs) = Ok (VStr "")).
Proof.
  split; [| split].
  - intros Hp Hc Hm Ht. unfold get_completion_text, hasattr, dict_mem.
    rewrite Hp, Hc. cbn [AIProvider_eqb andb getattr bind result_monad].
    rewrite Hc. cbn [getitem_0 getattr]. rewrite Hm.
    cbn [getattr]. rewrite Ht. reflexivity.
  - intros Hp Hc. unfold get_completion_text, hasattr, dict_mem.
    rewrite Hp, Hc. cbn [AIProvider_eqb andb getattr bind result_monad].
    rewrite Hc. reflexivity.
  - intros [Hp | Hp]; unfold get_completion_text, get_text_completion;
      rewrite Hp; split; reflexivity.
Qed.

Lemma object_answers_witness :
  get_completion_text
    (client_of OPENAI true (Some "https://api.openai.com/v1"))
    (sdk_chat_answer "hello")
  = Ok (VStr "hello").
Proof.
  apply (proj1 (object_answers
                  (client_of OPENAI true (Some "https://api.openai.com/v1"))
                  "ChatCompletion" "Choice" "ChatCompletionMessage" _
                  [("index", VInt 0);
                   ("message",
                    VObj "ChatCompletionMessage"
                      [("role", VStr "assistant");
                       ("content", VStr "hello")]);
                   ("finish_reason", VStr "stop")]
                  [("role", VStr "assistant"); ("content", VStr "hello")]
                  [] (VStr "hello"))).
  - reflexivity.
  - reflexivity.
  - reflexivity.
  - reflexivity.
Defined.

(** ** The model an operation uses *)

Lemma kwargs_ok_model (k : completion) (kwargs : dict) :
  kwargs_ok k kwargs = true -> dict_mem "model" kwargs = false.
Proof.
  unfold kwargs_ok. cbn [forallb]. intros Hok.
  apply Bool.andb_true_iff in Hok. destruct Hok as [_ Hok].
  apply Bool.andb_true_iff in Hok. destruct Hok as [Hmodel _].
  apply Bool.negb_true_iff. exact Hmodel.
Qed.

Lemma hosted_payload_model (k : completion) (model : string)
    (temperature : option Q) (max_tokens : option Z) (kwargs : dict) :
  kwargs_ok k kwargs = true ->
  dict_get "model"
    (hosted_payload (input_key k) (input_value k) model temperature
       max_tokens kwargs)
  = Some (VStr model).
Proof.
  intros Hok. apply kwargs_ok_model in Hok. unfold hosted_payload.
  destruct max_tokens as [n |].
  - rewrite dict_get_set_neq by reflexivity.
    rewrite dict_get_update by exact Hok. reflexivity.
  - rewrite dict_get_update by exact Hok. reflexivity.
Qed.

Lemma ollama_payload_model (k : completion) (model : string)
    (temperature : option Q) (max_tokens : option Z) :
  dict_get "model"
    (ollama_payload (input_key k) (input_value k) model temperature
       max_tokens)
  = Some (VStr model).
Proof. destruct k, temperature, max_tokens; reflexivity. Qed.

(** The request of the provider call of a remote provider, and the model it
    names. *)
Lemma provider_call_request (w : World) (st : St AIClient) (c : call) :
  AIProvider_eqb (provider (self_ st)) LOCAL = false ->
  call_kwargs_ok c = true ->
  exists r,
    snd (provider_call (self_ st) c w st) = issue r st /\
    request_model r
    = Some (VStr (effective_model (provider (self_ st)) c)).
Proof.
  intros Hp Hok.
  destruct c as [messages model t mt kwargs | prompt model t mt kwargs
                | text model];
    unfold provider_call, effective_model, chat_completion_try,
      text_completion_try, create_embedding_try;
    cbn [call_model call_default_model call_kwargs_ok] in *;
    destruct (provider (self_ st)); try discriminate Hp;
    destruct (client (self_ st)); cbn [AIProvider_eqb andb is_some];
    rewrite ?bind_lift_state;
    rewrite ?post_json_state, ?sdk_create_state;
    eexists; (split; [reflexivity |]); cbn [request_model];
    first
      [ exact (hosted_payload_model (Chat messages) _ t mt kwargs Hok)
      | exact (hosted_payload_model (Text prompt) _ t mt kwargs Hok)
      | exact (ollama_payload_model (Chat messages) _ t mt)
      | exact (ollama_payload_model (Text prompt) _ t mt)
      | reflexivity ].
Qed.

(** With the local provider an operation is its stub. *)
Lemma invoke_local (w : World) (st : St AIClient) (c : call) :
  provider (self_ st) = LOCAL ->
  invoke c w st = offline_stub (self_ st) c w st.
Proof.
  intros Hp. destruct c; unfold invoke, offline_stub.
  - unfold chat_completion, chat_completion_try.
    unfold bind, M_monad, get_self, try_except_Exception.
    cbv beta iota zeta. rewrite Hp. reflexivity.
  - unfold text_completion, text_completion_try.
    unfold bind, M_monad, get_self, try_except_Exception.
    cbv beta iota zeta. rewrite Hp. reflexivity.
  - rewrite create_embedding_local by exact Hp. rewrite Hp.
    cbn [default_embedding_model]. reflexivity.
Qed.

(** The answer of the stub of a chat or text call names the effective
    model. *)
Lemma offline_stub_model (self : AIClient) (c : call) (w : World)
    (st : St AIClient) :
  is_completion c = true ->
  exists answer,
    fst (offline_stub self c w st) = Ok answer /\
    answer_model answer = Some (VStr (effective_model (provider self) c)).
Proof.
  intros Hc. destruct c; try discriminate Hc;
    eexists; split; reflexivity.
Qed.

(** C6 (amended). The effective model of an operation is the explicit
    [model] argument when one is given and the default of the provider for
    that operation otherwise. It is the model the operation uses: the
    request sent to a remote provider names it, and so does the answer of
    the stub of a chat or text call (local provider, or fallback after a
    failed call). The chat, text and embedding defaults are pairwise
    distinct for OpenAI and DeepSeek; Ollama uses ["llama2"] for all three
    and the local provider ["local-model"] for chat and text and
    ["local-embedding"] for embeddings; for each operation the defaults of
    two different providers differ. *)
Theorem effective_model_resolution (w : World) (st : St AIClient)
    (c : call) :
  call_kwargs_ok c = true ->
  let p := provider (self_ st) in
  let m := effective_model p c in
  (forall explicit, call_model c = Some explicit -> m = explicit) /\
  (call_model c = None -> m = call_default_model p c) /\
  (AIProvider_eqb p LOCAL = false ->
   exists r,
     trace (snd (invoke c w st)) = (trace st ++ [r])%list /\
     request_model r = Some (VStr m)) /\
  (is_completion c = true ->
   p = LOCAL \/
   (falls_back (self_ st) = true /\
    is_raise (fst (provider_call (self_ st) c w st)) = true) ->
   exists answer,
     fst (invoke c w st) = Ok answer /\
     answer_model answer = Some (VStr m)) /\
  distinct_defaults OPENAI /\
  distinct_defaults DEEPSEEK /\
  (default_chat_model OLLAMA = "llama2" /\
   default_text_model OLLAMA = "llama2" /\
   default_embedding_model OLLAMA = "llama2") /\
  (default_chat_model LOCAL = "local-model" /\
   default_text_model LOCAL = "local-model" /\
   default_embedding_model LOCAL = "local-embedding") /\
  (forall p1 p2,
     AIProvider_eqb p1 p2 = false ->
     default_chat_model p1 <> default_chat_model p2 /\
     default_text_model p1 <> default_text_model p2 /\
     default_embedding_model p1 <> default_embedding_model p2).
Proof.
  intros Hok p m.
  split; [| split; [| split; [| split]]].
  - intros explicit Hexplicit. subst m. unfold effective_model.
    rewrite Hexplicit. reflexivity.
  - intros Hnone. subst m. unfold effective_model.
    rewrite Hnone. reflexivity.
  - intros Hp. subst p m.
    destruct (provider_call_request w st c Hp Hok) as (r & Hr & Hmodel).
    exists r. split; [| exact Hmodel].
    destruct c; unfold invoke, chat_completion, text_completion,
      create_embedding; unfold provider_call in Hr;
      unfold bind at 1; unfold M_monad, get_self; cbv beta iota zeta;
      (rewrite try_trace; [rewrite Hr; reflexivity |]);
      intros e st1; destruct (falls_back (self_ st));
      first [rewrite _local_embedding_spec; reflexivity | reflexivity].
  - intros Hc Hcase. subst p m.
    destruct Hcase as [Hlocal | [Hfb Hraise]].
    + rewrite (invoke_local w st c Hlocal).
      apply offline_stub_model. exact Hc.
    + destruct (provider_call (self_ st) c w st) as [[a | e] st'] eqn:Hcall;
        [discriminate Hraise |].
      rewrite (invoke_after_failure w st st' c e Hcall), Hfb.
      apply offline_stub_model. exact Hc.
  - repeat split; try discriminate; try reflexivity.
    all: intros; destruct p1, p2; simpl in *; congruence.
Qed.

Lemma effective_model_resolution_witness :
  (exists r,
     trace (snd (invoke
                   (ChatCall hello_messages (Some "my-model")
                      (Some (7 # 10)) None top_p_extra)
                   offline_world (fresh deepseek_fixture)))
     = ([] ++ [r])%list /\
     request_model r = Some (VStr "my-model")) /\
  (exists r,
     trace (snd (invoke (TextCall "poem" None (Some (7 # 10)) None [])
                   offline_world (fresh ollama_aiclient)))
     = ([] ++ [r])%list /\
     request_model r = Some (VStr "llama2")) /\
  (exists answer,
     fst (invoke (ChatCall hello_messages None (Some (7 # 10)) None [])
            offline_world (fresh deepseek_fixture)) = Ok answer /\
     answer_model answer = Some (VStr "deepseek-chat")).
Proof.
  split; [| split].
  - apply (proj1 (proj2 (proj2 (effective_model_resolution offline_world
                    (fresh deepseek_fixture)
                    (ChatCall hello_messages (Some "my-model")
                       (Some (7 # 10)) None top_p_extra)
                    eq_refl)))).
    reflexivity.
  - apply (proj1 (proj2 (proj2 (effective_model_resolution offline_world
                    (fresh ollama_aiclient)
                    (TextCall "poem" None (Some (7 # 10)) None [])
                    eq_refl)))).
    reflexivity.
  - apply (proj1 (proj2 (proj2 (proj2 (effective_model_resolution
                    offline_world (fresh deepseek_fixture)
                    (ChatCall hello_messages None (Some (7 # 10)) None [])
                    eq_refl))))).
    + reflexivity.
    + right. split; reflexivity.
Defined.
